(** * MNIST IDX reader: a shallow embedding of [mnist_reader.hpp]

    The development follows [include/mnist/mnist_reader.hpp]: the header
    reader [read_header], the two decoders [read_mnist_image_file] and
    [read_mnist_label_file], the wrappers that bind the canonical file
    names, the assembler [read_dataset_direct] and the two truncation
    operations of [MNIST_dataset].  The variant of the header that returns
    its containers by value is embedded in [Module ReturnByValue].

    Conventions.
    - [uint32_t] values are [Z] with the wrap-around written out ([wrap32]);
      [std::size_t] values (limits, sizes, loop counters) are [nat].
    - The raw buffer is a [list byte]; a pointer into it is an offset.
    - Reading or writing outside an array is undefined behaviour in C++;
      the embedding makes it an explicit outcome ([Undefined], [Crash]).
    - [std::cout] is the list of lines written, in order. *)

From stdpp Require Import list strings.
From Stdlib Require Import ZArith Lia Strings.Byte.

Local Open Scope Z_scope.

(** ** Outcomes *)

(** The ways in which the reader can leave the defined part of C++. *)
Inductive undefined_behaviour : Set :=
  | BufferOverread        (* a read through the buffer pointer past the end *)
  | ContainerOutOfRange   (* [images[i]] or [labels[i]] with [i >= size()] *)
  | ImageOutOfRange.      (* [images[i][j]] with [j >= images[i].size()] *)

(** A computation without output: a value, or undefined behaviour. *)
Inductive result (A : Type) : Type :=
  | Ok (a : A)
  | Undefined (ub : undefined_behaviour).
Arguments Ok {A} a.
Arguments Undefined {A} ub.

#[global] Instance result_ret : MRet result := fun A a => Ok a.
#[global] Instance result_bind : MBind result := fun A B f m =>
  match m with
  | Ok a => f a
  | Undefined ub => Undefined ub
  end.

(** A computation that may write lines to [std::cout] before it returns. *)
Inductive io (A : Type) : Type :=
  | Return (cout : list string) (a : A)
  | Crash (ub : undefined_behaviour).
Arguments Return {A} cout a.
Arguments Crash {A} ub.

#[global] Instance io_ret : MRet io := fun A a => Return [] a.
#[global] Instance io_bind : MBind io := fun A B f m =>
  match m with
  | Return out a =>
      match f a with
      | Return out' b => Return (out ++ out') b
      | Crash ub => Crash ub
      end
  | Crash ub => Crash ub
  end.

(** [std::cout << s << std::endl] *)
Definition print (s : string) : io unit := Return [s] tt.

Definition lift {A} (r : result A) : io A :=
  match r with
  | Ok a => Return [] a
  | Undefined ub => Crash ub
  end.

(** ** 32-bit unsigned arithmetic *)

Definition wrap32 (x : Z) : Z := x mod 2 ^ 32.
Definition add32 (a b : Z) : Z := wrap32 (a + b).
Definition mul32 (a b : Z) : Z := wrap32 (a * b).
Definition shl32 (a n : Z) : Z := wrap32 (Z.shiftl a n).
Definition shr32 (a n : Z) : Z := Z.shiftr a n.

(** The value of a [char] of the buffer seen as [unsigned char]. *)
Definition unsigned_char (b : byte) : Z := Z.of_N (Byte.to_N b).

(** ** The host *)

Inductive endianness : Set := LittleEndian | BigEndian.

(** [*(uint32_t* )p]: the 32-bit word the host reads from four consecutive
    bytes, lowest address first. *)
Definition native_uint32 (host : endianness) (b0 b1 b2 b3 : byte) : Z :=
  match host with
  | LittleEndian =>
      unsigned_char b0 + unsigned_char b1 * 2 ^ 8
      + unsigned_char b2 * 2 ^ 16 + unsigned_char b3 * 2 ^ 24
  | BigEndian =>
      unsigned_char b3 + unsigned_char b2 * 2 ^ 8
      + unsigned_char b1 * 2 ^ 16 + unsigned_char b0 * 2 ^ 24
  end.

(** One byte of the buffer; past the end the read is undefined. *)
Definition load (buffer : list byte) (i : nat) : result byte :=
  match buffer !! i with
  | Some b => Ok b
  | None => Undefined BufferOverread
  end.

(** [*(header + position)] *)
Definition load_uint32 (host : endianness) (buffer : list byte)
    (position : nat) : result Z :=
  b0 ← load buffer (4 * position)%nat;
  b1 ← load buffer (4 * position + 1)%nat;
  b2 ← load buffer (4 * position + 2)%nat;
  b3 ← load buffer (4 * position + 3)%nat;
  Ok (native_uint32 host b0 b1 b2 b3).

(** The return expression of [read_header]. *)
Definition swap_bytes (value : Z) : Z :=
  Z.lor
    (Z.lor
       (Z.lor (shl32 value 24) (Z.land (shl32 value 8) 0x00FF0000))
       (Z.land (shr32 value 8) 0x0000FF00))
    (shr32 value 24).

Definition read_header (host : endianness) (buffer : list byte)
    (position : nat) : result Z :=
  value ← load_uint32 host buffer position;
  Ok (swap_bytes value).

(** ** The file system

    [file.open(path, ...)] either fails ([!file]) or gives the whole
    content of the file, which the readers copy into [buffer]. *)
Definition filesystem : Type := string -> option (list byte).

(** The three diagnostics that the readers write. *)
Definition error_opening_file : string := "Error opening file".
Definition invalid_magic_number : string :=
  "Invalid magic number, probably not a MNIST file".
Definition file_not_large_enough : string :=
  "The file is not large enough to hold all the data, probably corrupted".

(** ** The decoders *)

Section Decoders.
Context {Pixel Label : Type}.

(** [static_cast<typename Image::value_type>(pixel)] and
    [static_cast<Label>(label)], applied to an [unsigned char]. *)
Variable pixel_cast : byte -> Pixel.
Variable label_cast : byte -> Label.

(** The value-initialised element, [Pixel()] and [Label()]. *)
Variable pixel_init : Pixel.
Variable label_init : Label.

(** An image is an indexable sequence of pixels. *)
Local Abbreviation Image := (list Pixel).

(** [images[i][j] = v], with the unchecked [operator[]] of both levels. *)
Definition assign_pixel (images : list Image) (i j : nat) (v : Pixel)
    : result (list Image) :=
  match images !! i with
  | None => Undefined ContainerOutOfRange
  | Some image =>
      if decide (j < length image)%nat
      then Ok (<[i := <[j := v]> image]> images)
      else Undefined ImageOutOfRange
  end.

(** [for(size_t j = 0; j < rows * columns; ++j)], entered at [j] with
    [remaining] iterations to go; [image_buffer] is the offset of the
    pointer of that name in the buffer. *)
Fixpoint copy_pixels (buffer : list byte) (images : list Image) (i : nat)
    (image_buffer j remaining : nat) : result (list Image * nat) :=
  match remaining with
  | O => Ok (images, image_buffer)
  | S remaining =>
      pixel ← load buffer image_buffer;
      images ← assign_pixel images i j (pixel_cast pixel);
      copy_pixels buffer images i (S image_buffer) (S j) remaining
  end.

(** [for(size_t i = 0; i < count; ++i)] of the image reader, entered at
    [i] with [remaining] iterations to go; [pixels] is [rows * columns]. *)
Fixpoint copy_images (buffer : list byte) (func : unit -> Image)
    (pixels : nat) (images : list Image) (image_buffer i remaining : nat)
    : result (list Image * nat) :=
  match remaining with
  | O => Ok (images, image_buffer)
  | S remaining =>
      let images := images ++ [func tt] in
      '(images, image_buffer) ←
        copy_pixels buffer images i image_buffer 0 pixels;
      copy_images buffer func pixels images image_buffer (S i) remaining
  end.

(** [if(limit > 0 && count > limit) count = limit;] *)
Definition apply_limit (limit : nat) (count : Z) : Z :=
  if (0 <? limit)%nat && (Z.of_nat limit <? count)
  then Z.of_nat limit else count.

(** [read_mnist_image_file(images, path, limit, func)]: the result is
    the container [images] as the call leaves it.  [images.reserve] does
    not change the content and is left out. *)
Definition read_mnist_image_file (host : endianness) (fs : filesystem)
    (images : list Image) (path : string) (limit : nat)
    (func : unit -> Image) : io (list Image) :=
  match fs path with
  | None =>
      _ ← print error_opening_file; mret images
  | Some buffer =>
      let size := Z.of_nat (length buffer) in
      magic ← lift (read_header host buffer 0);
      if decide (magic ≠ 0x803) then
        _ ← print invalid_magic_number;
        mret images
      else
        count ← lift (read_header host buffer 1);
        rows ← lift (read_header host buffer 2);
        columns ← lift (read_header host buffer 3);
        if decide (size < add32 (mul32 (mul32 count rows) columns) 16) then
          _ ← print file_not_large_enough;
          mret images
        else
          let count := apply_limit limit count in
          '(images, _) ←
            lift (copy_images buffer func (Z.to_nat (mul32 rows columns))
                    images 16 0 (Z.to_nat count));
          mret images
  end.

(** [labels[i] = v] *)
Definition assign_label (labels : list Label) (i : nat) (v : Label)
    : result (list Label) :=
  if decide (i < length labels)%nat
  then Ok (<[i := v]> labels)
  else Undefined ContainerOutOfRange.

(** [for(size_t i = 0; i < count; ++i)] of the label reader. *)
Fixpoint copy_labels (buffer : list byte) (labels : list Label)
    (label_buffer i remaining : nat) : result (list Label) :=
  match remaining with
  | O => Ok labels
  | S remaining =>
      label ← load buffer label_buffer;
      labels ← assign_label labels i (label_cast label);
      copy_labels buffer labels (S label_buffer) (S i) remaining
  end.

(** [read_mnist_label_file(labels, path, limit)] *)
Definition read_mnist_label_file (host : endianness) (fs : filesystem)
    (labels : list Label) (path : string) (limit : nat)
    : io (list Label) :=
  match fs path with
  | None =>
      _ ← print error_opening_file; mret labels
  | Some buffer =>
      let size := Z.of_nat (length buffer) in
      magic ← lift (read_header host buffer 0);
      if decide (magic ≠ 0x801) then
        _ ← print invalid_magic_number;
        mret labels
      else
        count ← lift (read_header host buffer 1);
        if decide (size < add32 count 8) then
          _ ← print file_not_large_enough;
          mret labels
        else
          let count := apply_limit limit count in
          let labels := resize (Z.to_nat count) label_init labels in
          lift (copy_labels buffer labels 8 0 (Z.to_nat count))
  end.

(** *** The canonical files *)

Definition read_training_images (host : endianness) (fs : filesystem)
    (limit : nat) (func : unit -> Image) : io (list Image) :=
  read_mnist_image_file host fs [] "mnist/train-images-idx3-ubyte" limit func.

Definition read_test_images (host : endianness) (fs : filesystem)
    (limit : nat) (func : unit -> Image) : io (list Image) :=
  read_mnist_image_file host fs [] "mnist/t10k-images-idx3-ubyte" limit func.

Definition read_training_labels (host : endianness) (fs : filesystem)
    (limit : nat) : io (list Label) :=
  read_mnist_label_file host fs [] "mnist/train-labels-idx1-ubyte" limit.

Definition read_test_labels (host : endianness) (fs : filesystem)
    (limit : nat) : io (list Label) :=
  read_mnist_label_file host fs [] "mnist/t10k-labels-idx1-ubyte" limit.

(** *** The dataset *)

Record MNIST_dataset : Type := {
  training_images : list Image;
  test_images : list Image;
  training_labels : list Label;
  test_labels : list Label
}.

(** [std::vector::resize] is stdpp's [resize]: it truncates, or pads
    with the value-initialised element ([Image()] is the empty image). *)
Definition resize_training (new_size : nat) (dataset : MNIST_dataset)
    : MNIST_dataset :=
  if decide (new_size < length (training_images dataset))%nat then
    {| training_images := resize new_size [] (training_images dataset);
       test_images := test_images dataset;
       training_labels := resize new_size label_init (training_labels dataset);
       test_labels := test_labels dataset |}
  else dataset.

Definition resize_test (new_size : nat) (dataset : MNIST_dataset)
    : MNIST_dataset :=
  if decide (new_size < length (test_images dataset))%nat then
    {| training_images := training_images dataset;
       test_images := resize new_size [] (test_images dataset);
       training_labels := training_labels dataset;
       test_labels := resize new_size label_init (test_labels dataset) |}
  else dataset.

(** The functor of [read_dataset_direct]: [Image(1 * 28 * 28)]. *)
Definition flat_image (_ : unit) : Image := replicate (1 * 28 * 28) pixel_init.

Definition read_dataset_direct (host : endianness) (fs : filesystem)
    (training_limit test_limit : nat) : io MNIST_dataset :=
  training_images ← read_training_images host fs training_limit flat_image;
  training_labels ← read_training_labels host fs training_limit;
  test_images ← read_test_images host fs test_limit flat_image;
  test_labels ← read_test_labels host fs test_limit;
  mret {| training_images := training_images;
          test_images := test_images;
          training_labels := training_labels;
          test_labels := test_labels |}.

Definition read_dataset (host : endianness) (fs : filesystem)
    (training_limit test_limit : nat) : io MNIST_dataset :=
  read_dataset_direct host fs training_limit test_limit.

(** A truncation request made on a dataset after it was assembled. *)
Inductive resize_operation : Set :=
  | ResizeTraining (new_size : nat)
  | ResizeTest (new_size : nat).

Definition apply_resize (dataset : MNIST_dataset) (op : resize_operation)
    : MNIST_dataset :=
  match op with
  | ResizeTraining new_size => resize_training new_size dataset
  | ResizeTest new_size => resize_test new_size dataset
  end.

End Decoders.

Arguments MNIST_dataset : clear implicits.

(** ** The variant of the header that returns its containers

    [read_mnist_image_file(path, limit)] and
    [read_mnist_label_file(path, limit)] build the container themselves
    and return it, or return an empty one after a diagnostic. *)
Module ReturnByValue.
Section Decoders.
Context {Pixel Label : Type}.
Variable pixel_cast : byte -> Pixel.
Variable label_cast : byte -> Label.
Variable pixel_init : Pixel.
Variable label_init : Label.

(** [images.emplace_back(rows * columns)] appends an image of that many
    value-initialised pixels, so the two loops are those of the reader
    above with that image as what is pushed. *)
Definition read_mnist_image_file (host : endianness) (fs : filesystem)
    (path : string) (limit : nat) : io (list (list Pixel)) :=
  match fs path with
  | None =>
      _ ← print error_opening_file; mret []
  | Some buffer =>
      let size := Z.of_nat (length buffer) in
      magic ← lift (read_header host buffer 0);
      if decide (magic ≠ 0x803) then
        _ ← print invalid_magic_number;
        mret []
      else
        count ← lift (read_header host buffer 1);
        rows ← lift (read_header host buffer 2);
        columns ← lift (read_header host buffer 3);
        if decide (size < add32 (mul32 (mul32 count rows) columns) 16) then
          _ ← print file_not_large_enough;
          mret []
        else
          let count := apply_limit limit count in
          let pixels := Z.to_nat (mul32 rows columns) in
          '(images, _) ←
            lift (copy_images pixel_cast buffer
                    (fun _ => replicate pixels pixel_init) pixels
                    [] 16 0 (Z.to_nat count));
          mret images
  end.

(** Here the container is sized from the declared count,
    [Container<Label> labels(count)], before the limit is applied. *)
Definition read_mnist_label_file (host : endianness) (fs : filesystem)
    (path : string) (limit : nat) : io (list Label) :=
  match fs path with
  | None =>
      _ ← print error_opening_file; mret []
  | Some buffer =>
      let size := Z.of_nat (length buffer) in
      magic ← lift (read_header host buffer 0);
      if decide (magic ≠ 0x801) then
        _ ← print invalid_magic_number;
        mret []
      else
        count ← lift (read_header host buffer 1);
        if decide (size < add32 count 8) then
          _ ← print file_not_large_enough;
          mret []
        else
          let labels := replicate (Z.to_nat count) label_init in
          let count := apply_limit limit count in
          lift (copy_labels label_cast buffer labels 8 0 (Z.to_nat count))
  end.

(** The canonical files and the assembler of this variant; its
    [MNIST_dataset] has the same four fields and the same two truncation
    operations as the one above. *)
Definition read_training_images (host : endianness) (fs : filesystem)
    (limit : nat) : io (list (list Pixel)) :=
  read_mnist_image_file host fs "mnist/train-images-idx3-ubyte" limit.

Definition read_test_images (host : endianness) (fs : filesystem)
    (limit : nat) : io (list (list Pixel)) :=
  read_mnist_image_file host fs "mnist/t10k-images-idx3-ubyte" limit.

Definition read_training_labels (host : endianness) (fs : filesystem)
    (limit : nat) : io (list Label) :=
  read_mnist_label_file host fs "mnist/train-labels-idx1-ubyte" limit.

Definition read_test_labels (host : endianness) (fs : filesystem)
    (limit : nat) : io (list Label) :=
  read_mnist_label_file host fs "mnist/t10k-labels-idx1-ubyte" limit.

Definition read_dataset (host : endianness) (fs : filesystem)
    (training_limit test_limit : nat) : io (MNIST_dataset Pixel Label) :=
  training_images ← read_training_images host fs training_limit;
  training_labels ← read_training_labels host fs training_limit;
  test_images ← read_test_images host fs test_limit;
  test_labels ← read_test_labels host fs test_limit;
  mret {| training_images := training_images;
          test_images := test_images;
          training_labels := training_labels;
          test_labels := test_labels |}.

End Decoders.
End ReturnByValue.

(** ** Building files (used in the examples)

    The four bytes of a 32-bit word in the order of the format, and the
    two kinds of file laid out as the format has them. *)
Definition byte_of_Z (z : Z) : byte :=
  default x00 (Byte.of_N (Z.to_N (z mod 256))).

Definition big_endian_bytes (w : Z) : list byte :=
  [byte_of_Z (w / 2 ^ 24); byte_of_Z (w / 2 ^ 16); byte_of_Z (w / 2 ^ 8);
   byte_of_Z w].

Definition image_file (magic count rows columns : Z) (payload : list byte)
    : list byte :=
  big_endian_bytes magic ++ big_endian_bytes count ++ big_endian_bytes rows
  ++ big_endian_bytes columns ++ payload.

Definition label_file (magic count : Z) (payload : list byte) : list byte :=
  big_endian_bytes magic ++ big_endian_bytes count ++ payload.

(** A file system that holds one file. *)
Definition one_file (path : string) (content : list byte) : filesystem :=
  fun p => if decide (p = path) then Some content else None.

(** [uint8_t] elements: the cast keeps the value of the byte. *)
Definition uint8 (b : byte) : Z := unsigned_char b.

(** ** Reading the format (used to state the properties)

    The big-endian value of four bytes, byte [k] of a 32-bit word (byte 0
    is the least significant one), and the header word that the format
    stores at a word offset of a file. *)
Definition big_endian (b0 b1 b2 b3 : byte) : Z :=
  unsigned_char b0 * 2 ^ 24 + unsigned_char b1 * 2 ^ 16
  + unsigned_char b2 * 2 ^ 8 + unsigned_char b3.

Definition byte_of_word (w : Z) (k : Z) : Z := (w / 2 ^ (8 * k)) mod 2 ^ 8.

Definition header_word (buffer : list byte) (position : nat) : option Z :=
  b0 ← buffer !! (4 * position)%nat;
  b1 ← buffer !! (4 * position + 1)%nat;
  b2 ← buffer !! (4 * position + 2)%nat;
  b3 ← buffer !! (4 * position + 3)%nat;
  Some (big_endian b0 b1 b2 b3).

(** What the caller of a reader gets back: the container, not what was
    written to [std::cout]. *)
Definition returned {A} (r : io A) : option A :=
  match r with
  | Return _ a => Some a
  | Crash _ => None
  end.

(** Image [k] of the images decoded from offset [image_buffer]: the object
    that the functor made, its first [pixels] elements replaced by the
    [pixels] bytes of the payload that start at
    [image_buffer + k * pixels]. *)
Definition decoded_image {Pixel} (pixel_cast : byte -> Pixel)
    (buffer : list byte) (func : unit -> list Pixel)
    (pixels image_buffer k : nat) : list Pixel :=
  (pixel_cast <$> take pixels (drop (image_buffer + k * pixels) buffer))
  ++ drop pixels (func tt).

(** An image that was in the container, or that the functor made, after
    the reader wrote image [k] of the payload over its first [pixels]
    elements. *)
Definition refilled {Pixel} (pixel_cast : byte -> Pixel)
    (buffer : list byte) (pixels image_buffer k : nat)
    (image : list Pixel) : list Pixel :=
  (pixel_cast <$> take pixels (drop (image_buffer + k * pixels) buffer))
  ++ drop pixels image.

(** The number of items that a reader is asked for: all of them when the
    limit is 0, at most [limit] of them otherwise. *)
Definition requested (limit : nat) (item_count : Z) : nat :=
  match limit with
  | O => Z.to_nat item_count
  | S _ => Nat.min (Z.to_nat item_count) limit
  end.

(** An image file with the magic number of the format whose header
    declares [count] images of [rows] by [columns] pixels, and that holds
    the payload it declares (in exact arithmetic). *)
Definition image_file_well_formed (buffer : list byte)
    (count rows columns : Z) : Prop :=
  header_word buffer 0 = Some 0x803
  /\ header_word buffer 1 = Some count
  /\ header_word buffer 2 = Some rows
  /\ header_word buffer 3 = Some columns
  /\ count * rows * columns + 16 <= Z.of_nat (length buffer).

(** The same for a label file that declares [count] labels. *)
Definition label_file_well_formed (buffer : list byte) (count : Z) : Prop :=
  header_word buffer 0 = Some 0x801
  /\ header_word buffer 1 = Some count
  /\ count + 8 <= Z.of_nat (length buffer).

(** The checks of the image reader, as it computes them, all pass. *)
Definition image_checks_pass (host : endianness) (fs : filesystem)
    (path : string) : Prop :=
  exists buffer count rows columns,
    fs path = Some buffer
    /\ read_header host buffer 0 = Ok 0x803
    /\ read_header host buffer 1 = Ok count
    /\ read_header host buffer 2 = Ok rows
    /\ read_header host buffer 3 = Ok columns
    /\ ~ Z.of_nat (length buffer) < add32 (mul32 (mul32 count rows) columns) 16.

(** The checks of the label reader, as it computes them, all pass. *)
Definition label_checks_pass (host : endianness) (fs : filesystem)
    (path : string) : Prop :=
  exists buffer count,
    fs path = Some buffer
    /\ read_header host buffer 0 = Ok 0x801
    /\ read_header host buffer 1 = Ok count
    /\ ~ Z.of_nat (length buffer) < add32 count 8.

(** The two splits of a dataset have as many images as labels. *)
Definition counts_agree {Pixel Label} (dataset : MNIST_dataset Pixel Label)
    : Prop :=
  length (training_images dataset) = length (training_labels dataset)
  /\ length (test_images dataset) = length (test_labels dataset).

(** A directory that holds the four canonical files (used in the
    examples). *)
Definition mnist_directory (train_images train_labels t10k_images
    t10k_labels : list byte) : filesystem :=
  fun p =>
    if decide (p = "mnist/train-images-idx3-ubyte") then Some train_images
    else if decide (p = "mnist/train-labels-idx1-ubyte") then Some train_labels
    else if decide (p = "mnist/t10k-images-idx3-ubyte") then Some t10k_images
    else if decide (p = "mnist/t10k-labels-idx1-ubyte") then Some t10k_labels
    else None.

(** ** Facts on bytes and words *)

Lemma unsigned_char_range b : 0 <= unsigned_char b < 256.
Proof.
  unfold unsigned_char. pose proof (Byte.to_N_bounded b). lia.
Qed.

Lemma native_uint32_range host b0 b1 b2 b3 :
  0 <= native_uint32 host b0 b1 b2 b3 < 2 ^ 32.
Proof.
  pose proof (unsigned_char_range b0). pose proof (unsigned_char_range b1).
  pose proof (unsigned_char_range b2). pose proof (unsigned_char_range b3).
  destruct host; simpl; lia.
Qed.

Lemma big_endian_range b0 b1 b2 b3 : 0 <= big_endian b0 b1 b2 b3 < 2 ^ 32.
Proof.
  pose proof (unsigned_char_range b0). pose proof (unsigned_char_range b1).
  pose proof (unsigned_char_range b2). pose proof (unsigned_char_range b3).
  unfold big_endian. lia.
Qed.

(** Masking with eight ones at bit [k] selects byte [k/8], in place. *)
Lemma land_byte_mask x k :
  0 <= k -> Z.land x (Z.shiftl (Z.ones 8) k) = (x / 2 ^ k) mod 2 ^ 8 * 2 ^ k.
Proof.
  intros Hk. rewrite <- Z.shiftl_mul_pow2, <- Z.land_ones, <- Z.shiftr_div_pow2 by lia.
  apply Z.bits_inj'. intros n Hn.
  rewrite Z.land_spec. destruct (Z.lt_ge_cases n k) as [Hlt | Hge].
  - rewrite !Z.shiftl_spec_low by lia. apply andb_false_r.
  - rewrite !Z.shiftl_spec, Z.land_spec, Z.shiftr_spec by lia.
    do 2 f_equal. lia.
Qed.

(** Two numbers that occupy different bit ranges are or-ed by adding them. *)
Lemma lor_disjoint_add hi lo k :
  0 <= k -> 0 <= lo < 2 ^ k -> Z.lor (hi * 2 ^ k) lo = hi * 2 ^ k + lo.
Proof.
  intros Hk Hlo. symmetry. apply Z.add_nocarry_lor.
  apply Z.bits_inj'. intros n Hn.
  rewrite Z.land_spec, Z.bits_0, <- Z.shiftl_mul_pow2 by lia.
  destruct (Z.lt_ge_cases n k) as [Hlt | Hge].
  - rewrite Z.shiftl_spec_low by lia. reflexivity.
  - rewrite <- (Z.mod_small lo (2 ^ k)) by lia.
    rewrite Z.mod_pow2_bits_high by lia. apply andb_false_r.
Qed.

(** The swap, as arithmetic on the four bytes of the word. *)
Lemma swap_bytes_digits a b c d :
  0 <= a < 256 -> 0 <= b < 256 -> 0 <= c < 256 -> 0 <= d < 256 ->
  swap_bytes (a + b * 2 ^ 8 + c * 2 ^ 16 + d * 2 ^ 24)
  = d + c * 2 ^ 8 + b * 2 ^ 16 + a * 2 ^ 24.
Proof.
  intros Ha Hb Hc Hd. unfold swap_bytes, shl32, shr32, wrap32.
  set (v := a + b * 2 ^ 8 + c * 2 ^ 16 + d * 2 ^ 24).
  rewrite !Z.shiftl_mul_pow2, !Z.shiftr_div_pow2 by lia.
  change 0x00FF0000 with (Z.shiftl (Z.ones 8) 16).
  change 0x0000FF00 with (Z.shiftl (Z.ones 8) 8).
  rewrite !land_byte_mask by lia.
  assert (H1 : v * 2 ^ 24 mod 2 ^ 32 = a * 2 ^ 24).
  { replace (v * 2 ^ 24)
      with (a * 2 ^ 24 + (b + c * 2 ^ 8 + d * 2 ^ 16) * 2 ^ 32)
      by (unfold v; lia).
    rewrite Z.mod_add by lia. apply Z.mod_small. lia. }
  assert (H2 : (v * 2 ^ 8 mod 2 ^ 32 / 2 ^ 16) mod 2 ^ 8 = b).
  { replace (v * 2 ^ 8)
      with (a * 2 ^ 8 + b * 2 ^ 16 + c * 2 ^ 24 + d * 2 ^ 32)
      by (unfold v; lia).
    rewrite Z.mod_add by lia.
    rewrite (Z.mod_small (a * 2 ^ 8 + b * 2 ^ 16 + c * 2 ^ 24)) by lia.
    replace (a * 2 ^ 8 + b * 2 ^ 16 + c * 2 ^ 24)
      with (a * 2 ^ 8 + (b + c * 2 ^ 8) * 2 ^ 16) by lia.
    rewrite Z.div_add by lia. rewrite (Z.div_small (a * 2 ^ 8)) by lia.
    rewrite Z.add_0_l, Z.mod_add by lia. apply Z.mod_small. lia. }
  assert (H3 : (v / 2 ^ 8 / 2 ^ 8) mod 2 ^ 8 = c).
  { rewrite Z.div_div by lia. change (2 ^ 8 * 2 ^ 8) with (2 ^ 16).
    replace v with (a + b * 2 ^ 8 + (c + d * 2 ^ 8) * 2 ^ 16)
      by (unfold v; lia).
    rewrite Z.div_add by lia. rewrite (Z.div_small (a + b * 2 ^ 8)) by lia.
    rewrite Z.add_0_l, Z.mod_add by lia. apply Z.mod_small. lia. }
  assert (H4 : v / 2 ^ 24 = d).
  { unfold v. rewrite Z.div_add by lia.
    rewrite (Z.div_small (a + b * 2 ^ 8 + c * 2 ^ 16)) by lia. lia. }
  rewrite H1, H2, H3, H4.
  rewrite (lor_disjoint_add a (b * 2 ^ 16) 24) by lia.
  replace (a * 2 ^ 24 + b * 2 ^ 16) with ((a * 2 ^ 8 + b) * 2 ^ 16) by lia.
  rewrite (lor_disjoint_add _ (c * 2 ^ 8) 16) by lia.
  replace ((a * 2 ^ 8 + b) * 2 ^ 16 + c * 2 ^ 8)
    with ((a * 2 ^ 16 + b * 2 ^ 8 + c) * 2 ^ 8) by lia.
  rewrite (lor_disjoint_add _ d 8) by lia. lia.
Qed.

Lemma byte_of_word_digits a b c d :
  0 <= a < 256 -> 0 <= b < 256 -> 0 <= c < 256 -> 0 <= d < 256 ->
  let w := a + b * 2 ^ 8 + c * 2 ^ 16 + d * 2 ^ 24 in
  byte_of_word w 0 = a /\ byte_of_word w 1 = b
  /\ byte_of_word w 2 = c /\ byte_of_word w 3 = d.
Proof.
  intros Ha Hb Hc Hd w. unfold byte_of_word, w.
  change (2 ^ (8 * 0)) with 1. change (2 ^ (8 * 1)) with (2 ^ 8).
  change (2 ^ (8 * 2)) with (2 ^ 16). change (2 ^ (8 * 3)) with (2 ^ 24).
  repeat split.
  - rewrite Z.div_1_r.
    replace (a + b * 2 ^ 8 + c * 2 ^ 16 + d * 2 ^ 24)
      with (a + (b + c * 2 ^ 8 + d * 2 ^ 16) * 2 ^ 8) by lia.
    rewrite Z.mod_add by lia. apply Z.mod_small. lia.
  - replace (a + b * 2 ^ 8 + c * 2 ^ 16 + d * 2 ^ 24)
      with (a + (b + (c + d * 2 ^ 8) * 2 ^ 8) * 2 ^ 8) by lia.
    rewrite Z.div_add, (Z.div_small a), Z.add_0_l, Z.mod_add by lia.
    apply Z.mod_small. lia.
  - replace (a + b * 2 ^ 8 + c * 2 ^ 16 + d * 2 ^ 24)
      with (a + b * 2 ^ 8 + (c + d * 2 ^ 8) * 2 ^ 16) by lia.
    rewrite Z.div_add, (Z.div_small (a + b * 2 ^ 8)), Z.add_0_l, Z.mod_add
      by lia.
    apply Z.mod_small. lia.
  - rewrite Z.div_add, (Z.div_small (a + b * 2 ^ 8 + c * 2 ^ 16)), Z.add_0_l
      by lia.
    apply Z.mod_small. lia.
Qed.

(** Whatever the host, the word returned has the bytes of the word loaded
    in the reverse order. *)
Lemma swap_bytes_reverses host b0 b1 b2 b3 :
  let value := native_uint32 host b0 b1 b2 b3 in
  byte_of_word (swap_bytes value) 0 = byte_of_word value 3
  /\ byte_of_word (swap_bytes value) 1 = byte_of_word value 2
  /\ byte_of_word (swap_bytes value) 2 = byte_of_word value 1
  /\ byte_of_word (swap_bytes value) 3 = byte_of_word value 0.
Proof.
  pose proof (unsigned_char_range b0) as H0.
  pose proof (unsigned_char_range b1) as H1.
  pose proof (unsigned_char_range b2) as H2.
  pose proof (unsigned_char_range b3) as H3.
  destruct host; simpl.
  - rewrite swap_bytes_digits by assumption.
    destruct (byte_of_word_digits _ _ _ _ H0 H1 H2 H3) as (-> & -> & -> & ->).
    destruct (byte_of_word_digits _ _ _ _ H3 H2 H1 H0) as (-> & -> & -> & ->).
    auto.
  - rewrite swap_bytes_digits by assumption.
    destruct (byte_of_word_digits _ _ _ _ H0 H1 H2 H3) as (-> & -> & -> & ->).
    destruct (byte_of_word_digits _ _ _ _ H3 H2 H1 H0) as (-> & -> & -> & ->).
    auto.
Qed.

(** ** The header reader *)

Lemma load_lookup buffer i b : buffer !! i = Some b -> load buffer i = Ok b.
Proof. unfold load. intros ->. reflexivity. Qed.

Lemma load_uint32_lookup host buffer position b0 b1 b2 b3 :
  buffer !! (4 * position)%nat = Some b0 ->
  buffer !! (4 * position + 1)%nat = Some b1 ->
  buffer !! (4 * position + 2)%nat = Some b2 ->
  buffer !! (4 * position + 3)%nat = Some b3 ->
  load_uint32 host buffer position = Ok (native_uint32 host b0 b1 b2 b3).
Proof.
  intros E0 E1 E2 E3. unfold load_uint32.
  rewrite (load_lookup _ _ _ E0), (load_lookup _ _ _ E1),
    (load_lookup _ _ _ E2), (load_lookup _ _ _ E3).
  reflexivity.
Qed.

Lemma swap_little_endian b0 b1 b2 b3 :
  swap_bytes (native_uint32 LittleEndian b0 b1 b2 b3) = big_endian b0 b1 b2 b3.
Proof.
  simpl. rewrite swap_bytes_digits by apply unsigned_char_range.
  unfold big_endian. lia.
Qed.

(** On a little-endian host [read_header] returns the header word of the
    format. *)
Lemma read_header_little_endian buffer position w :
  header_word buffer position = Some w ->
  read_header LittleEndian buffer position = Ok w.
Proof.
  unfold header_word. intros H.
  destruct (buffer !! (4 * position)%nat) as [b0|] eqn:E0; [|discriminate].
  destruct (buffer !! (4 * position + 1)%nat) as [b1|] eqn:E1; [|discriminate].
  destruct (buffer !! (4 * position + 2)%nat) as [b2|] eqn:E2; [|discriminate].
  destruct (buffer !! (4 * position + 3)%nat) as [b3|] eqn:E3; [|discriminate].
  simpl in H. injection H as <-.
  unfold read_header. rewrite (load_uint32_lookup _ _ _ _ _ _ _ E0 E1 E2 E3).
  simpl. f_equal. apply swap_little_endian.
Qed.

Lemma header_word_range buffer position w :
  header_word buffer position = Some w -> 0 <= w < 2 ^ 32.
Proof.
  unfold header_word. intros H.
  destruct (buffer !! (4 * position)%nat) as [b0|]; [|discriminate].
  destruct (buffer !! (4 * position + 1)%nat) as [b1|]; [|discriminate].
  destruct (buffer !! (4 * position + 2)%nat) as [b2|]; [|discriminate].
  destruct (buffer !! (4 * position + 3)%nat) as [b3|]; [|discriminate].
  simpl in H. injection H as <-. apply big_endian_range.
Qed.

Lemma four_bytes_available (buffer : list byte) position :
  (4 * (position + 1) <= length buffer)%nat ->
  exists b0 b1 b2 b3,
    buffer !! (4 * position)%nat = Some b0
    /\ buffer !! (4 * position + 1)%nat = Some b1
    /\ buffer !! (4 * position + 2)%nat = Some b2
    /\ buffer !! (4 * position + 3)%nat = Some b3.
Proof.
  intros Hlen.
  destruct (lookup_lt_is_Some_2 buffer (4 * position)) as [b0 E0]; [lia|].
  destruct (lookup_lt_is_Some_2 buffer (4 * position + 1)) as [b1 E1]; [lia|].
  destruct (lookup_lt_is_Some_2 buffer (4 * position + 2)) as [b2 E2]; [lia|].
  destruct (lookup_lt_is_Some_2 buffer (4 * position + 3)) as [b3 E3]; [lia|].
  exists b0, b1, b2, b3. auto.
Qed.

(** C3 (amended): on a little-endian host, for every buffer of at least
    [(position+1)*4] bytes, [read_header buffer position] returns the
    big-endian 32-bit integer stored at bytes [4*position .. 4*position+3],
    that is [buffer[4p]*2^24 + buffer[4p+1]*2^16 + buffer[4p+2]*2^8 +
    buffer[4p+3]].  On every host the word returned is the word loaded with
    its bytes reversed: output byte 0 is input byte 3, byte 1 is byte 2,
    byte 2 is byte 1 and byte 3 is byte 0. *)
Theorem read_header_big_endian_on_little_endian_host
    (buffer : list byte) (position : nat) :
  (4 * (position + 1) <= length buffer)%nat ->
  exists b0 b1 b2 b3,
    buffer !! (4 * position)%nat = Some b0
    /\ buffer !! (4 * position + 1)%nat = Some b1
    /\ buffer !! (4 * position + 2)%nat = Some b2
    /\ buffer !! (4 * position + 3)%nat = Some b3
    /\ read_header LittleEndian buffer position
       = Ok (unsigned_char b0 * 2 ^ 24 + unsigned_char b1 * 2 ^ 16
             + unsigned_char b2 * 2 ^ 8 + unsigned_char b3)
    /\ forall host, exists value,
         load_uint32 host buffer position = Ok value
         /\ read_header host buffer position = Ok (swap_bytes value)
         /\ byte_of_word (swap_bytes value) 0 = byte_of_word value 3
         /\ byte_of_word (swap_bytes value) 1 = byte_of_word value 2
         /\ byte_of_word (swap_bytes value) 2 = byte_of_word value 1
         /\ byte_of_word (swap_bytes value) 3 = byte_of_word value 0.
Proof.
  intros Hlen.
  destruct (four_bytes_available buffer position Hlen)
    as (b0 & b1 & b2 & b3 & E0 & E1 & E2 & E3).
  exists b0, b1, b2, b3. repeat (split; [assumption|]). split.
  - apply read_header_little_endian. unfold header_word.
    rewrite E0, E1, E2, E3. reflexivity.
  - intros host. exists (native_uint32 host b0 b1 b2 b3).
    pose proof (load_uint32_lookup host _ _ _ _ _ _ E0 E1 E2 E3) as Hload.
    split; [exact Hload|]. split.
    + unfold read_header. rewrite Hload. reflexivity.
    + apply swap_bytes_reverses.
Qed.

Lemma read_header_big_endian_on_little_endian_host_witness :
  exists b0 b1 b2 b3,
    [x00; x00; x08; x03] !! 0%nat = Some b0
    /\ [x00; x00; x08; x03] !! 1%nat = Some b1
    /\ [x00; x00; x08; x03] !! 2%nat = Some b2
    /\ [x00; x00; x08; x03] !! 3%nat = Some b3
    /\ read_header LittleEndian [x00; x00; x08; x03] 0
       = Ok (unsigned_char b0 * 2 ^ 24 + unsigned_char b1 * 2 ^ 16
             + unsigned_char b2 * 2 ^ 8 + unsigned_char b3)
    /\ forall host, exists value,
         load_uint32 host [x00; x00; x08; x03] 0 = Ok value
         /\ read_header host [x00; x00; x08; x03] 0 = Ok (swap_bytes value)
         /\ byte_of_word (swap_bytes value) 0 = byte_of_word value 3
         /\ byte_of_word (swap_bytes value) 1 = byte_of_word value 2
         /\ byte_of_word (swap_bytes value) 2 = byte_of_word value 1
         /\ byte_of_word (swap_bytes value) 3 = byte_of_word value 0.
Proof.
  apply (read_header_big_endian_on_little_endian_host [x00; x00; x08; x03] 0).
  simpl. lia.
Defined.

(** C3, as stated, fails on a big-endian host: the four bytes
    [00 00 08 03] hold the big-endian integer [0x803], and [read_header]
    returns [0x03080000]. *)
Lemma read_header_big_endian_host_counterexample :
  (4 * (0 + 1) <= length [x00; x00; x08; x03])%nat
  /\ read_header BigEndian [x00; x00; x08; x03] 0 = Ok 0x03080000
  /\ read_header BigEndian [x00; x00; x08; x03] 0
     <> Ok (unsigned_char x00 * 2 ^ 24 + unsigned_char x00 * 2 ^ 16
            + unsigned_char x08 * 2 ^ 8 + unsigned_char x03).
Proof.
  split; [simpl; lia|]. split; [reflexivity|].
  vm_compute. discriminate.
Qed.

(** ** The copy loops *)

Section CopyLoops.
Context {Pixel Label : Type}.
Variable pixel_cast : byte -> Pixel.
Variable label_cast : byte -> Label.

(** The label loop overwrites [labels[i .. i+remaining)] with the next
    [remaining] bytes of the buffer. *)
Lemma copy_labels_spec (buffer : list byte) (remaining : nat) :
  forall (labels : list Label) (label_buffer i : nat),
    (i + remaining <= length labels)%nat ->
    (label_buffer + remaining <= length buffer)%nat ->
    copy_labels label_cast buffer labels label_buffer i remaining
    = Ok (take i labels
          ++ (label_cast <$> take remaining (drop label_buffer buffer))
          ++ drop (i + remaining) labels).
Proof.
  induction remaining as [|remaining IH]; intros labels label_buffer i Hl Hb.
  - simpl. rewrite Nat.add_0_r, take_drop. reflexivity.
  - destruct (lookup_lt_is_Some_2 buffer label_buffer) as [b Eb]; [lia|].
    simpl. rewrite (load_lookup _ _ _ Eb). simpl.
    unfold assign_label. destruct (decide (i < length labels)%nat); [|lia].
    simpl. rewrite IH by (rewrite ?length_insert; lia).
    f_equal.
    rewrite (drop_S _ _ _ Eb), firstn_cons, fmap_cons.
    rewrite drop_insert_lt by lia.
    rewrite (take_S_r (<[i:=label_cast b]> labels) i (label_cast b))
      by (apply list_lookup_insert_eq; lia).
    rewrite take_insert_ge by lia.
    rewrite <- app_assoc. simpl.
    repeat f_equal. lia.
Qed.

(** The pixel loop overwrites [images[i][j .. j+remaining)]. *)
Lemma copy_pixels_spec (buffer : list byte) (i remaining : nat) :
  forall (images : list (list Pixel)) (image : list Pixel)
         (image_buffer j : nat),
    images !! i = Some image ->
    (j + remaining <= length image)%nat ->
    (image_buffer + remaining <= length buffer)%nat ->
    copy_pixels pixel_cast buffer images i image_buffer j remaining
    = Ok (<[i := take j image
                 ++ (pixel_cast <$> take remaining (drop image_buffer buffer))
                 ++ drop (j + remaining) image]> images,
          (image_buffer + remaining)%nat).
Proof.
  induction remaining as [|remaining IH];
    intros images image image_buffer j Hi Hl Hb.
  - simpl. rewrite !Nat.add_0_r, take_drop, list_insert_id by assumption.
    reflexivity.
  - destruct (lookup_lt_is_Some_2 buffer image_buffer) as [b Eb]; [lia|].
    pose proof (lookup_lt_Some _ _ _ Hi) as Hlt.
    simpl. rewrite (load_lookup _ _ _ Eb). simpl.
    unfold assign_pixel. rewrite Hi.
    destruct (decide (j < length image)%nat); [|lia].
    simpl.
    rewrite (IH _ (<[j:=pixel_cast b]> image))
      by (rewrite ?length_insert; try lia;
          apply list_lookup_insert_eq; assumption).
    rewrite list_insert_insert_eq.
    f_equal. f_equal; [|lia]. f_equal.
    rewrite (drop_S _ _ _ Eb), firstn_cons, fmap_cons.
    rewrite drop_insert_lt by lia.
    rewrite (take_S_r (<[j:=pixel_cast b]> image) j (pixel_cast b))
      by (apply list_lookup_insert_eq; lia).
    rewrite take_insert_ge by lia.
    rewrite <- app_assoc. simpl.
    repeat f_equal. lia.
Qed.

(** The image loop, entered with a container of [i] images, appends one
    decoded image per iteration. *)
Lemma copy_images_spec (buffer : list byte) (func : unit -> list Pixel)
    (pixels remaining : nat) :
  forall (images : list (list Pixel)) (image_buffer i : nat),
    length images = i ->
    (pixels <= length (func tt))%nat ->
    (image_buffer + remaining * pixels <= length buffer)%nat ->
    copy_images pixel_cast buffer func pixels images image_buffer i remaining
    = Ok (images
          ++ (decoded_image pixel_cast buffer func pixels image_buffer
                <$> seq 0 remaining),
          (image_buffer + remaining * pixels)%nat).
Proof.
  induction remaining as [|remaining IH]; intros images image_buffer i Hi Hf Hb.
  - simpl. rewrite app_nil_r, Nat.add_0_r. reflexivity.
  - simpl.
    rewrite (copy_pixels_spec buffer i pixels _ (func tt))
      by (try lia; subst i; apply list_lookup_middle; reflexivity).
    simpl. rewrite (IH _ _ (S i)) by (rewrite ?length_insert, ?length_app; simpl; lia).
    f_equal. f_equal; [|lia].
    subst i. replace (length images) with (length images + 0)%nat at 1 by lia.
    rewrite insert_app_r. simpl. rewrite <- app_assoc. simpl.
    f_equal. f_equal.
    + unfold decoded_image. simpl. rewrite Nat.add_0_r. reflexivity.
    + rewrite <- fmap_S_seq, <- list_fmap_compose.
      apply list_fmap_ext. intros _ k _. unfold decoded_image. simpl.
      rewrite Nat.add_assoc. reflexivity.
Qed.

End CopyLoops.

(** ** The limit *)

Lemma wrap32_le x : 0 <= x -> 0 <= wrap32 x <= x.
Proof.
  intros Hx. unfold wrap32. split.
  - apply Z.mod_pos_bound. lia.
  - apply Z.mod_le; lia.
Qed.

Lemma wrap32_small x : 0 <= x < 2 ^ 32 -> wrap32 x = x.
Proof. intros Hx. unfold wrap32. apply Z.mod_small. exact Hx. Qed.

Lemma apply_limit_requested limit count :
  0 <= count -> Z.to_nat (apply_limit limit count) = requested limit count.
Proof.
  intros Hc. unfold apply_limit, requested. destruct limit as [|limit].
  - reflexivity.
  - change (0 <? S limit)%nat with true. simpl andb.
    destruct (Z.ltb_spec (Z.of_nat (S limit)) count); lia.
Qed.

Lemma requested_le limit count : (requested limit count <= Z.to_nat count)%nat.
Proof. unfold requested. destruct limit; lia. Qed.

(** ** The readers on their failure paths (any host) *)

Section FailurePaths.
Context {Pixel Label : Type}.
Variable pixel_cast : byte -> Pixel.
Variable label_cast : byte -> Label.
Variable label_init : Label.
Variable host : endianness.
Variable fs : filesystem.
Variable path : string.

Lemma image_open_failure images limit func :
  fs path = None ->
  read_mnist_image_file pixel_cast host fs images path limit func
  = Return [error_opening_file] images.
Proof. intros E. unfold read_mnist_image_file. rewrite E. reflexivity. Qed.

Lemma image_invalid_magic buffer magic images limit func :
  fs path = Some buffer ->
  read_header host buffer 0 = Ok magic ->
  magic <> 0x803 ->
  read_mnist_image_file pixel_cast host fs images path limit func
  = Return [invalid_magic_number] images.
Proof.
  intros E E0 Hm. unfold read_mnist_image_file. rewrite E, E0. simpl.
  destruct (decide (magic ≠ 2051)); [reflexivity | contradiction].
Qed.

Lemma image_too_small buffer count rows columns images limit func :
  fs path = Some buffer ->
  read_header host buffer 0 = Ok 0x803 ->
  read_header host buffer 1 = Ok count ->
  read_header host buffer 2 = Ok rows ->
  read_header host buffer 3 = Ok columns ->
  Z.of_nat (length buffer) < add32 (mul32 (mul32 count rows) columns) 16 ->
  read_mnist_image_file pixel_cast host fs images path limit func
  = Return [file_not_large_enough] images.
Proof.
  intros E E0 E1 E2 E3 Hs. unfold read_mnist_image_file.
  rewrite E, E0. simpl. rewrite E1, E2, E3. simpl.
  destruct (decide _); [reflexivity | contradiction].
Qed.

Lemma label_open_failure labels limit :
  fs path = None ->
  read_mnist_label_file label_cast label_init host fs labels path limit
  = Return [error_opening_file] labels.
Proof. intros E. unfold read_mnist_label_file. rewrite E. reflexivity. Qed.

Lemma label_invalid_magic buffer magic labels limit :
  fs path = Some buffer ->
  read_header host buffer 0 = Ok magic ->
  magic <> 0x801 ->
  read_mnist_label_file label_cast label_init host fs labels path limit
  = Return [invalid_magic_number] labels.
Proof.
  intros E E0 Hm. unfold read_mnist_label_file. rewrite E, E0. simpl.
  destruct (decide (magic ≠ 2049)); [reflexivity | contradiction].
Qed.

Lemma label_too_small buffer count labels limit :
  fs path = Some buffer ->
  read_header host buffer 0 = Ok 0x801 ->
  read_header host buffer 1 = Ok count ->
  Z.of_nat (length buffer) < add32 count 8 ->
  read_mnist_label_file label_cast label_init host fs labels path limit
  = Return [file_not_large_enough] labels.
Proof.
  intros E E0 E1 Hs. unfold read_mnist_label_file.
  rewrite E, E0. simpl. rewrite E1. simpl.
  destruct (decide _); [reflexivity | contradiction].
Qed.

(** A run that returns has either passed the three checks and written
    nothing, or written one diagnostic and left the container alone. *)
Lemma image_run_cases images limit func out images' :
  read_mnist_image_file pixel_cast host fs images path limit func
  = Return out images' ->
  (out = [] /\ image_checks_pass host fs path)
  \/ (images' = images
      /\ (out = [error_opening_file] \/ out = [invalid_magic_number]
          \/ out = [file_not_large_enough])).
Proof.
  unfold read_mnist_image_file, image_checks_pass.
  destruct (fs path) as [buffer|] eqn:E.
  2:{ simpl. intros [= <- <-]. right. auto. }
  destruct (read_header host buffer 0) as [magic|] eqn:E0; [|discriminate].
  simpl. destruct (decide (magic ≠ 2051)) as [Hm|Hm].
  { simpl. intros [= <- <-]. right. auto. }
  apply dec_stable in Hm. subst magic.
  destruct (read_header host buffer 1) as [count|] eqn:E1; [|discriminate].
  destruct (read_header host buffer 2) as [rows|] eqn:E2; [|discriminate].
  destruct (read_header host buffer 3) as [columns|] eqn:E3; [|discriminate].
  simpl. destruct (decide _) as [Hs|Hs].
  { simpl. intros [= <- <-]. right. auto. }
  destruct (copy_images _ _ _ _ _ _ _ _) as [[images2 p]|]; [|discriminate].
  simpl. intros [= <- <-]. left. split; [reflexivity|].
  exists buffer, count, rows, columns. auto 10.
Qed.

Lemma label_run_cases labels limit out labels' :
  read_mnist_label_file label_cast label_init host fs labels path limit
  = Return out labels' ->
  (out = [] /\ label_checks_pass host fs path)
  \/ (labels' = labels
      /\ (out = [error_opening_file] \/ out = [invalid_magic_number]
          \/ out = [file_not_large_enough])).
Proof.
  unfold read_mnist_label_file, label_checks_pass.
  destruct (fs path) as [buffer|] eqn:E.
  2:{ simpl. intros [= <- <-]. right. auto. }
  destruct (read_header host buffer 0) as [magic|] eqn:E0; [|discriminate].
  simpl. destruct (decide (magic ≠ 2049)) as [Hm|Hm].
  { simpl. intros [= <- <-]. right. auto. }
  apply dec_stable in Hm. subst magic.
  destruct (read_header host buffer 1) as [count|] eqn:E1; [|discriminate].
  simpl. destruct (decide _) as [Hs|Hs].
  { simpl. intros [= <- <-]. right. auto. }
  destruct (copy_labels _ _ _ _ _ _) as [labels2|]; [|discriminate].
  simpl. intros [= <- <-]. left. split; [reflexivity|].
  exists buffer, count. auto 10.
Qed.

End FailurePaths.

(** ** The readers on well-formed files (little-endian host) *)

Section WellFormedFiles.
Context {Pixel Label : Type}.
Variable pixel_cast : byte -> Pixel.
Variable label_cast : byte -> Label.
Variable pixel_init : Pixel.
Variable label_init : Label.
Variable fs : filesystem.

(** The size check of the label reader accepts what the exact check
    accepts. *)
Lemma label_size_check_passes (size count : Z) :
  0 <= count -> count + 8 <= size -> ~ size < add32 count 8.
Proof.
  intros Hc Hs. unfold add32. pose proof (wrap32_le (count + 8)). lia.
Qed.

(** The size check of the image reader accepts what the exact check
    accepts. *)
Lemma image_size_check_passes (size count rows columns : Z) :
  0 <= count -> 0 <= rows -> 0 <= columns ->
  count * rows * columns + 16 <= size ->
  ~ size < add32 (mul32 (mul32 count rows) columns) 16.
Proof.
  intros Hc Hr Hk Hs. unfold add32, mul32.
  pose proof (wrap32_le (count * rows)) as H1.
  pose proof (wrap32_le (wrap32 (count * rows) * columns)) as H2.
  pose proof (wrap32_le (wrap32 (wrap32 (count * rows) * columns) + 16)) as H3.
  assert (0 <= count * rows) by lia.
  assert (0 <= wrap32 (count * rows) * columns) by lia.
  assert (wrap32 (count * rows) * columns <= count * rows * columns)
    by (apply Z.mul_le_mono_nonneg_r; lia).
  lia.
Qed.

(** Labels: whatever the container held, it ends up holding the first
    [requested limit count] payload bytes, cast one by one. *)
Lemma read_mnist_label_file_decodes path buffer count labels limit :
  fs path = Some buffer ->
  label_file_well_formed buffer count ->
  read_mnist_label_file label_cast label_init LittleEndian fs labels
    path limit
  = Return [] (label_cast <$> take (requested limit count) (drop 8 buffer)).
Proof.
  intros E (H0 & H1 & Hs).
  pose proof (header_word_range _ _ _ H1) as Hc.
  unfold read_mnist_label_file. rewrite E.
  rewrite (read_header_little_endian _ _ _ H0). simpl.
  destruct (decide (2049 ≠ 2049)) as [Hm|_]; [contradiction|].
  rewrite (read_header_little_endian _ _ _ H1). simpl.
  destruct (decide _) as [Hbad|_].
  { exfalso. revert Hbad. apply label_size_check_passes; lia. }
  rewrite apply_limit_requested by lia.
  pose proof (requested_le limit count) as Hle.
  rewrite copy_labels_spec
    by (rewrite ?length_resize; lia).
  simpl. rewrite (drop_ge (resize _ _ _)) by (rewrite length_resize; lia).
  rewrite app_nil_r. reflexivity.
Qed.

(** Images, read into an empty container: one decoded image per
    requested item, in file order. *)
Lemma read_mnist_image_file_decodes path buffer count rows columns
    limit func :
  fs path = Some buffer ->
  image_file_well_formed buffer count rows columns ->
  rows * columns < 2 ^ 32 ->
  (Z.to_nat (rows * columns) <= length (func tt))%nat ->
  read_mnist_image_file pixel_cast LittleEndian fs [] path limit func
  = Return []
      (decoded_image pixel_cast buffer func (Z.to_nat (rows * columns)) 16
         <$> seq 0 (requested limit count)).
Proof.
  intros E (H0 & H1 & H2 & H3 & Hs) Hrc Hf.
  pose proof (header_word_range _ _ _ H1) as Hc.
  pose proof (header_word_range _ _ _ H2) as Hr.
  pose proof (header_word_range _ _ _ H3) as Hk.
  unfold read_mnist_image_file. rewrite E.
  rewrite (read_header_little_endian _ _ _ H0). simpl.
  destruct (decide (2051 ≠ 2051)) as [Hm|_]; [contradiction|].
  rewrite (read_header_little_endian _ _ _ H1),
    (read_header_little_endian _ _ _ H2),
    (read_header_little_endian _ _ _ H3). simpl.
  destruct (decide _) as [Hbad|_].
  { exfalso. revert Hbad. apply image_size_check_passes; lia. }
  rewrite apply_limit_requested by lia.
  unfold mul32. rewrite wrap32_small by lia.
  pose proof (requested_le limit count) as Hle.
  rewrite copy_images_spec; [reflexivity | reflexivity | assumption |].
  apply Nat2Z.inj_le. rewrite Nat2Z.inj_add, Nat2Z.inj_mul.
  rewrite Z2Nat.id by lia.
  assert (Z.of_nat (requested limit count) <= count) by lia.
  assert (Z.of_nat (requested limit count) * (rows * columns)
          <= count * (rows * columns))
    by (apply Z.mul_le_mono_nonneg_r; lia).
  lia.
Qed.

(** The variant that returns its container builds images of exactly
    [rows * columns] pixels. *)
Lemma by_value_image_file_decodes path buffer count rows columns limit :
  fs path = Some buffer ->
  image_file_well_formed buffer count rows columns ->
  rows * columns < 2 ^ 32 ->
  ReturnByValue.read_mnist_image_file pixel_cast pixel_init LittleEndian fs
    path limit
  = Return []
      ((fun k => pixel_cast
                 <$> take (Z.to_nat (rows * columns))
                       (drop (16 + k * Z.to_nat (rows * columns)) buffer))
         <$> seq 0 (requested limit count)).
Proof.
  intros E (H0 & H1 & H2 & H3 & Hs) Hrc.
  pose proof (header_word_range _ _ _ H1) as Hc.
  pose proof (header_word_range _ _ _ H2) as Hr.
  pose proof (header_word_range _ _ _ H3) as Hk.
  unfold ReturnByValue.read_mnist_image_file. rewrite E.
  rewrite (read_header_little_endian _ _ _ H0). simpl.
  destruct (decide (2051 ≠ 2051)) as [Hm|_]; [contradiction|].
  rewrite (read_header_little_endian _ _ _ H1),
    (read_header_little_endian _ _ _ H2),
    (read_header_little_endian _ _ _ H3). simpl.
  destruct (decide _) as [Hbad|_].
  { exfalso. revert Hbad. apply image_size_check_passes; lia. }
  rewrite apply_limit_requested by lia.
  unfold mul32. rewrite wrap32_small by lia.
  pose proof (requested_le limit count) as Hle.
  rewrite copy_images_spec.
  - simpl. f_equal. apply list_fmap_ext. intros _ k _.
    unfold decoded_image.
    rewrite (drop_ge (replicate _ _)) by (rewrite length_replicate; lia).
    apply app_nil_r.
  - reflexivity.
  - rewrite length_replicate. lia.
  - apply Nat2Z.inj_le. rewrite Nat2Z.inj_add, Nat2Z.inj_mul.
    rewrite Z2Nat.id by lia.
    assert (Z.of_nat (requested limit count) <= count) by lia.
    assert (Z.of_nat (requested limit count) * (rows * columns)
            <= count * (rows * columns))
      by (apply Z.mul_le_mono_nonneg_r; lia).
    lia.
Qed.

(** The image loop reads past the buffer as soon as it is entered with
    no payload left. *)
Lemma copy_images_overread buffer func pixels images image_buffer i
    remaining :
  buffer !! image_buffer = None ->
  copy_images pixel_cast buffer func (S pixels) images image_buffer i
    (S remaining)
  = Undefined BufferOverread.
Proof. intros E. simpl. unfold load. rewrite E. reflexivity. Qed.

Lemma length_decoded_image buffer func pixels image_buffer k :
  (image_buffer + (k + 1) * pixels <= length buffer)%nat ->
  (pixels <= length (func tt))%nat ->
  length (decoded_image pixel_cast buffer func pixels image_buffer k)
  = length (func tt).
Proof.
  intros Hb Hf. unfold decoded_image.
  rewrite length_app, length_fmap, length_take, length_drop, length_drop.
  lia.
Qed.

End WellFormedFiles.

(** ** How many images the reader leaves, whatever the functor *)

Section ImageCount.
Context {Pixel : Type}.
Variable pixel_cast : byte -> Pixel.

Lemma copy_pixels_length (buffer : list byte) (i remaining : nat) :
  forall (images images' : list (list Pixel)) (image_buffer j p : nat),
    copy_pixels pixel_cast buffer images i image_buffer j remaining
    = Ok (images', p) ->
    length images' = length images.
Proof.
  induction remaining as [|remaining IH];
    intros images images' image_buffer j p; simpl.
  - intros [= <- _]. reflexivity.
  - destruct (load buffer image_buffer) as [pixel|]; [|discriminate].
    simpl. unfold assign_pixel.
    destruct (images !! i) as [image|]; [|discriminate].
    destruct (decide _); [|discriminate].
    simpl. intros Hrun. rewrite (IH _ _ _ _ _ Hrun).
    apply length_insert.
Qed.

Lemma copy_images_length (buffer : list byte) (func : unit -> list Pixel)
    (pixels remaining : nat) :
  forall (images images' : list (list Pixel)) (image_buffer i p : nat),
    copy_images pixel_cast buffer func pixels images image_buffer i remaining
    = Ok (images', p) ->
    length images' = (length images + remaining)%nat.
Proof.
  induction remaining as [|remaining IH];
    intros images images' image_buffer i p; simpl.
  - intros [= <- _]. lia.
  - destruct (copy_pixels _ _ _ _ _ _ _) as [[images1 p1]|] eqn:Hpix;
      [|discriminate].
    simpl. intros Hrun. rewrite (IH _ _ _ _ _ Hrun).
    rewrite (copy_pixels_length _ _ _ _ _ _ _ _ Hpix), length_app.
    simpl. lia.
Qed.

(** On a well-formed file, a call that returns has written nothing and
    has appended exactly the requested number of images. *)
Lemma read_mnist_image_file_count (fs : filesystem) path buffer
    count rows columns limit func out images :
  fs path = Some buffer ->
  image_file_well_formed buffer count rows columns ->
  read_mnist_image_file pixel_cast LittleEndian fs [] path limit func
  = Return out images ->
  out = [] /\ length images = requested limit count.
Proof.
  intros E (H0 & H1 & H2 & H3 & Hs).
  pose proof (header_word_range _ _ _ H1) as Hc.
  pose proof (header_word_range _ _ _ H2) as Hr.
  pose proof (header_word_range _ _ _ H3) as Hk.
  unfold read_mnist_image_file. rewrite E.
  rewrite (read_header_little_endian _ _ _ H0). simpl.
  destruct (decide (2051 ≠ 2051)) as [Hm|_]; [contradiction|].
  rewrite (read_header_little_endian _ _ _ H1),
    (read_header_little_endian _ _ _ H2),
    (read_header_little_endian _ _ _ H3). simpl.
  destruct (decide _) as [Hbad|_].
  { exfalso. revert Hbad. apply image_size_check_passes; lia. }
  rewrite apply_limit_requested by lia.
  destruct (copy_images _ _ _ _ _ _ _ _) as [[images1 p1]|] eqn:Hrun;
    [|discriminate].
  simpl. intros [= <- <-]. split; [reflexivity|].
  apply (copy_images_length _ _ _ _ _ _ _ _ _ Hrun).
Qed.

End ImageCount.

(** ** The size check of the image reader *)

(** When the declared payload does not wrap around 32 bits, a file that
    is too short for it is rejected and the container is left alone. *)
Lemma truncated_image_file_rejected {Pixel} (pixel_cast : byte -> Pixel)
    (fs : filesystem) (path : string) (buffer : list byte)
    (count rows columns : Z) (images : list (list Pixel)) (limit : nat)
    (func : unit -> list Pixel) :
  fs path = Some buffer ->
  header_word buffer 0 = Some 0x803 ->
  header_word buffer 1 = Some count ->
  header_word buffer 2 = Some rows ->
  header_word buffer 3 = Some columns ->
  count * rows * columns + 16 < 2 ^ 32 ->
  count * rows * columns > Z.of_nat (length buffer) - 16 ->
  read_mnist_image_file pixel_cast LittleEndian fs images path limit func
  = Return [file_not_large_enough] images.
Proof.
  intros E H0 H1 H2 H3 Hsmall Hbig.
  pose proof (header_word_range _ _ _ H1) as Hc.
  pose proof (header_word_range _ _ _ H2) as Hr.
  pose proof (header_word_range _ _ _ H3) as Hk.
  apply (image_too_small pixel_cast LittleEndian fs path buffer count rows
           columns); try (apply read_header_little_endian; assumption).
  - assumption.
  - assert (0 <= count * rows) by lia.
    assert (0 <= count * rows * columns) by lia.
    assert (count * rows <= count * rows * columns \/ columns = 0) as Hcr
      by nia.
    unfold add32, mul32.
    destruct Hcr as [Hcr | ->].
    + rewrite (wrap32_small (count * rows)) by lia.
      rewrite (wrap32_small (count * rows * columns)) by lia.
      rewrite wrap32_small by lia. lia.
    + rewrite Z.mul_0_r in *. rewrite (wrap32_small 0) by lia.
      rewrite wrap32_small by lia. lia.
Qed.

(** A file that passes the size check as the reader computes it and has
    no byte after its header is read past its end, as soon as one image
    of one pixel is asked for. *)
Lemma image_reader_overread {Pixel} (pixel_cast : byte -> Pixel)
    (fs : filesystem) (path : string) (buffer : list byte)
    (count rows columns : Z) (images : list (list Pixel)) (limit : nat)
    (func : unit -> list Pixel) :
  fs path = Some buffer ->
  header_word buffer 0 = Some 0x803 ->
  header_word buffer 1 = Some count ->
  header_word buffer 2 = Some rows ->
  header_word buffer 3 = Some columns ->
  ~ Z.of_nat (length buffer) < add32 (mul32 (mul32 count rows) columns) 16 ->
  length buffer = 16%nat ->
  0 < count ->
  0 < mul32 rows columns ->
  read_mnist_image_file pixel_cast LittleEndian fs images path limit func
  = Crash BufferOverread.
Proof.
  intros E H0 H1 H2 H3 Hpass Hlen Hc Hp.
  unfold read_mnist_image_file. rewrite E.
  rewrite (read_header_little_endian _ _ _ H0). simpl.
  destruct (decide (2051 ≠ 2051)) as [Hm|_]; [contradiction|].
  rewrite (read_header_little_endian _ _ _ H1),
    (read_header_little_endian _ _ _ H2),
    (read_header_little_endian _ _ _ H3). simpl.
  destruct (decide _) as [Hlt|_]; [contradiction|].
  rewrite apply_limit_requested by lia.
  assert (Hn : exists n, requested limit count = S n).
  { unfold requested. destruct limit as [|limit].
    - exists (Nat.pred (Z.to_nat count)). lia.
    - exists (Nat.pred (Nat.min (Z.to_nat count) (S limit))). lia. }
  destruct Hn as [n ->].
  replace (Z.to_nat (mul32 rows columns))
    with (S (Nat.pred (Z.to_nat (mul32 rows columns)))) by lia.
  rewrite copy_images_overread; [reflexivity|].
  apply lookup_ge_None. lia.
Qed.

(** C1 (the code departs from the claim): the header [(0x803, 65536,
    65536, 1)] declares [2^32] pixel bytes and the file holds none, yet the
    32-bit product wraps to 0, the size check passes, the corrupt-file
    diagnostic is not written, and the copy loop reads past the end of the
    buffer at its first pixel. *)
Theorem image_size_check_wraps_around {Pixel} (pixel_cast : byte -> Pixel)
    (images : list (list Pixel)) (limit : nat) (func : unit -> list Pixel) :
  header_word (image_file 0x803 65536 65536 1 []) 0 = Some 0x803
  /\ header_word (image_file 0x803 65536 65536 1 []) 1 = Some 65536
  /\ header_word (image_file 0x803 65536 65536 1 []) 2 = Some 65536
  /\ header_word (image_file 0x803 65536 65536 1 []) 3 = Some 1
  /\ 65536 * 65536 * 1
     > Z.of_nat (length (image_file 0x803 65536 65536 1 [])) - 16
  /\ add32 (mul32 (mul32 65536 65536) 1) 16 = 16
  /\ read_mnist_image_file pixel_cast LittleEndian
       (one_file "mnist/train-images-idx3-ubyte"
          (image_file 0x803 65536 65536 1 []))
       images "mnist/train-images-idx3-ubyte" limit func
     = Crash BufferOverread.
Proof.
  repeat (split; [reflexivity|]).
  apply (image_reader_overread pixel_cast _ _
           (image_file 0x803 65536 65536 1 []) 65536 65536 1);
    try reflexivity.
  vm_compute. discriminate.
Qed.

(** ** The image reader on well-formed files *)

(** C2, as stated, fails on the functor of [read_dataset_direct]: a file
    that declares one image of 1 by 1 pixels is decoded to one image of
    784 elements. *)
Lemma image_length_counterexample :
  image_file_well_formed (image_file 0x803 1 1 1 [x09]) 1 1 1
  /\ exists image,
       read_mnist_image_file uint8 LittleEndian
         (one_file "mnist/train-images-idx3-ubyte"
            (image_file 0x803 1 1 1 [x09]))
         [] "mnist/train-images-idx3-ubyte" 0 (flat_image 0)
       = Return [] [image]
       /\ length image = 784%nat
       /\ length image <> Z.to_nat (1 * 1).
Proof.
  split.
  - repeat split; try reflexivity; vm_compute; discriminate.
  - eexists. split; [vm_compute; reflexivity|].
    split; [reflexivity|]. vm_compute. discriminate.
Qed.

(** C2 (amended): on a little-endian host, for every image file with magic
    [0x803] that holds the payload it declares ([count*rows*columns + 16 <=
    size] in exact arithmetic) with [rows*columns < 2^32], and every limit,
    the reader fills an empty container with exactly [min(count, limit)]
    images when [limit > 0] and [count] images when [limit = 0], the first
    ones in file order.  In the current header, image [i] is the object
    made by the caller's functor (which must have at least [rows*columns]
    elements) with its first [rows*columns] elements replaced by the
    payload bytes that start at offset [16 + i*rows*columns]: it has as many
    elements as the functor gave it.  In the variant that returns its
    container, image [i] is exactly those [rows*columns] bytes. *)
Theorem read_mnist_image_file_prefix {Pixel} (pixel_cast : byte -> Pixel)
    (pixel_init : Pixel) (fs : filesystem) (path : string)
    (buffer : list byte) (count rows columns : Z) (limit : nat)
    (func : unit -> list Pixel) :
  fs path = Some buffer ->
  image_file_well_formed buffer count rows columns ->
  rows * columns < 2 ^ 32 ->
  let pixels := Z.to_nat (rows * columns) in
  let n := requested limit count in
  ((pixels <= length (func tt))%nat ->
   exists images,
     read_mnist_image_file pixel_cast LittleEndian fs [] path limit func
     = Return [] images
     /\ length images = n
     /\ forall i, (i < n)%nat ->
          images !! i
          = Some ((pixel_cast <$> take pixels (drop (16 + i * pixels) buffer))
                  ++ drop pixels (func tt))
          /\ length ((pixel_cast
                      <$> take pixels (drop (16 + i * pixels) buffer))
                     ++ drop pixels (func tt))
             = length (func tt))
  /\ exists images,
       ReturnByValue.read_mnist_image_file pixel_cast pixel_init LittleEndian
         fs path limit
       = Return [] images
       /\ length images = n
       /\ forall i, (i < n)%nat ->
            images !! i
            = Some (pixel_cast <$> take pixels (drop (16 + i * pixels) buffer))
            /\ length (pixel_cast
                       <$> take pixels (drop (16 + i * pixels) buffer))
               = pixels.
Proof.
  intros E Hwf Hrc pixels n.
  assert (Hbound : forall i, (i < n)%nat ->
                     (16 + (i + 1) * pixels <= length buffer)%nat).
  { intros i Hi. destruct Hwf as (_ & H1 & H2 & H3 & Hs).
    pose proof (header_word_range _ _ _ H1) as Hc.
    pose proof (header_word_range _ _ _ H2) as Hr.
    pose proof (header_word_range _ _ _ H3) as Hk.
    pose proof (requested_le limit count) as Hle. fold n in Hle.
    apply Nat2Z.inj_le. rewrite Nat2Z.inj_add, Nat2Z.inj_mul.
    unfold pixels. rewrite Z2Nat.id by lia.
    assert (Z.of_nat (i + 1) <= count) by lia.
    assert (Z.of_nat (i + 1) * (rows * columns) <= count * (rows * columns))
      by (apply Z.mul_le_mono_nonneg_r; lia).
    lia. }
  split.
  - intros Hf. eexists. split.
    { apply (read_mnist_image_file_decodes pixel_cast fs path buffer count
               rows columns); assumption. }
    split; [rewrite length_fmap, length_seq; reflexivity|].
    intros i Hi. split.
    + rewrite list_lookup_fmap, lookup_seq_lt by exact Hi. reflexivity.
    + apply (length_decoded_image pixel_cast buffer func pixels 16 i);
        [apply Hbound; exact Hi | exact Hf].
  - eexists. split.
    { apply (by_value_image_file_decodes pixel_cast pixel_init fs path buffer
               count rows columns); assumption. }
    split; [rewrite length_fmap, length_seq; reflexivity|].
    intros i Hi. split.
    + rewrite list_lookup_fmap, lookup_seq_lt by exact Hi. reflexivity.
    + rewrite length_fmap, length_take, length_drop.
      specialize (Hbound i Hi). fold pixels. lia.
Qed.

Lemma read_mnist_image_file_prefix_witness :
  exists images,
    read_mnist_image_file uint8 LittleEndian
      (one_file "images"
         (image_file 0x803 2 2 2 [x01; x02; x03; x04; x05; x06; x07; x08]))
      [] "images" 1 (fun _ => [0; 0; 0; 0; 0])
    = Return [] images
    /\ length images = 1%nat
    /\ forall i, (i < 1)%nat ->
         images !! i
         = Some ((uint8
                  <$> take 4
                        (drop (16 + i * 4)
                           (image_file 0x803 2 2 2
                              [x01; x02; x03; x04; x05; x06; x07; x08])))
                 ++ [0])
         /\ length ((uint8
                     <$> take 4
                           (drop (16 + i * 4)
                              (image_file 0x803 2 2 2
                                 [x01; x02; x03; x04; x05; x06; x07; x08])))
                    ++ [0])
            = 5%nat.
Proof.
  refine (proj1 (read_mnist_image_file_prefix uint8 0
                   (one_file "images"
                      (image_file 0x803 2 2 2
                         [x01; x02; x03; x04; x05; x06; x07; x08]))
                   "images" _ 2 2 2 1 (fun _ => [0; 0; 0; 0; 0]) _ _ _) _).
  - reflexivity.
  - repeat split; try reflexivity; vm_compute; discriminate.
  - reflexivity.
  - simpl. lia.
Defined.

(** ** The label reader *)

(** The current header applies the limit before it sizes the container:
    on every well-formed label file it leaves exactly the first
    [min(count, limit)] payload bytes ([count] of them when the limit is
    0), whatever the container held. *)
Lemma read_mnist_label_file_prefix {Label} (label_cast : byte -> Label)
    (label_init : Label) (fs : filesystem) (path : string)
    (buffer : list byte) (count : Z) (labels : list Label) (limit : nat) :
  fs path = Some buffer ->
  label_file_well_formed buffer count ->
  exists labels',
    read_mnist_label_file label_cast label_init LittleEndian fs labels path
      limit
    = Return [] labels'
    /\ length labels' = requested limit count
    /\ labels' = label_cast <$> take (requested limit count) (drop 8 buffer).
Proof.
  intros E Hwf. eexists. split.
  { apply read_mnist_label_file_decodes; eassumption. }
  split; [|reflexivity].
  destruct Hwf as (_ & H1 & Hs).
  pose proof (header_word_range _ _ _ H1) as Hc.
  pose proof (requested_le limit count) as Hle.
  rewrite length_fmap, length_take, length_drop. lia.
Qed.

(** The variant that returns its container sizes it from the declared
    count before it applies the limit: on every well-formed label file it
    returns [count] labels, of which the first [min(count, limit)] are the
    payload bytes and the others are value-initialised. *)
Lemma by_value_label_file_length {Label} (label_cast : byte -> Label)
    (label_init : Label) (fs : filesystem) (path : string)
    (buffer : list byte) (count : Z) (limit : nat) :
  fs path = Some buffer ->
  label_file_well_formed buffer count ->
  exists labels,
    ReturnByValue.read_mnist_label_file label_cast label_init LittleEndian
      fs path limit
    = Return [] labels
    /\ length labels = Z.to_nat count
    /\ labels
       = (label_cast <$> take (requested limit count) (drop 8 buffer))
         ++ replicate (Z.to_nat count - requested limit count) label_init.
Proof.
  intros E (H0 & H1 & Hs).
  pose proof (header_word_range _ _ _ H1) as Hc.
  pose proof (requested_le limit count) as Hle.
  unfold ReturnByValue.read_mnist_label_file. rewrite E.
  rewrite (read_header_little_endian _ _ _ H0). simpl.
  destruct (decide (2049 ≠ 2049)) as [Hm|_]; [contradiction|].
  rewrite (read_header_little_endian _ _ _ H1). simpl.
  destruct (decide _) as [Hbad|_].
  { exfalso. revert Hbad. apply label_size_check_passes; lia. }
  rewrite apply_limit_requested by lia.
  rewrite copy_labels_spec by (rewrite ?length_replicate; lia).
  simpl. rewrite drop_replicate.
  eexists. split; [reflexivity|]. split; [|reflexivity].
  rewrite length_app, length_fmap, length_take, length_drop, length_replicate.
  lia.
Qed.

(** C4 (the code departs from the claim): the variant that returns its
    container sizes it from the declared count and applies the limit
    afterwards.  On the label file [(0x801, 3)] with payload [7 2 9] and
    limit 1 it returns three labels, [7 0 0], where the claim has exactly
    one; the current header returns [7] on the same input. *)
Theorem by_value_label_file_ignores_limit_in_size :
  label_file_well_formed (label_file 0x801 3 [x07; x02; x09]) 3
  /\ ReturnByValue.read_mnist_label_file uint8 0 LittleEndian
       (one_file "mnist/train-labels-idx1-ubyte"
          (label_file 0x801 3 [x07; x02; x09]))
       "mnist/train-labels-idx1-ubyte" 1
     = Return [] [7; 0; 0]
  /\ requested 1 3 = 1%nat
  /\ read_mnist_label_file uint8 0 LittleEndian
       (one_file "mnist/train-labels-idx1-ubyte"
          (label_file 0x801 3 [x07; x02; x09]))
       [] "mnist/train-labels-idx1-ubyte" 1
     = Return [] [7].
Proof.
  split.
  { repeat split; try reflexivity; vm_compute; discriminate. }
  split; [vm_compute; reflexivity|].
  split; [reflexivity|]. vm_compute. reflexivity.
Qed.

(** ** The magic number *)

(** C5, as stated, fails: a file with the wrong magic number yields no
    error.  The image reader given a label file writes the invalid-magic
    line and returns normally, and its caller gets back what the decoding
    of a well-formed image file with no item gives. *)
Lemma wrong_magic_number_yields_no_error :
  header_word (label_file 0x801 1 [x07]) 0 = Some 0x801
  /\ 0x801 <> 0x803
  /\ read_mnist_image_file uint8 LittleEndian
       (one_file "images" (label_file 0x801 1 [x07])) [] "images" 0
       (flat_image 0)
     = Return [invalid_magic_number] []
  /\ read_mnist_image_file uint8 LittleEndian
       (one_file "images" (image_file 0x803 0 28 28 [])) [] "images" 0
       (flat_image 0)
     = Return [] []
  /\ returned (read_mnist_image_file uint8 LittleEndian
                 (one_file "images" (label_file 0x801 1 [x07])) [] "images"
                 0 (flat_image 0))
     = returned (read_mnist_image_file uint8 LittleEndian
                   (one_file "images" (image_file 0x803 0 28 28 [])) []
                   "images" 0 (flat_image 0)).
Proof.
  split; [reflexivity|]. split; [discriminate|].
  repeat split; vm_compute; reflexivity.
Qed.

(** C5 (amended): on a little-endian host, on a file whose first four
    bytes, read as a big-endian 32-bit integer, are not [0x803] (image
    reader) or not [0x801] (label reader), the reader writes the line
    "Invalid magic number, probably not a MNIST file" to the standard
    output and returns normally, without an error value, and it produces
    no data: the caller's container is left as it was, and the variant
    that returns its container returns an empty one. *)
Theorem invalid_magic_number_rejected {Pixel Label}
    (pixel_cast : byte -> Pixel) (label_cast : byte -> Label)
    (pixel_init : Pixel) (label_init : Label)
    (fs : filesystem) (path : string) (buffer : list byte) (magic : Z) :
  fs path = Some buffer ->
  header_word buffer 0 = Some magic ->
  (magic <> 0x803 ->
   (forall images limit func,
      read_mnist_image_file pixel_cast LittleEndian fs images path limit func
      = Return [invalid_magic_number] images)
   /\ (forall limit,
         ReturnByValue.read_mnist_image_file pixel_cast pixel_init
           LittleEndian fs path limit
         = Return [invalid_magic_number] []))
  /\ (magic <> 0x801 ->
      (forall labels limit,
         read_mnist_label_file label_cast label_init LittleEndian fs labels
           path limit
         = Return [invalid_magic_number] labels)
      /\ (forall limit,
            ReturnByValue.read_mnist_label_file label_cast label_init
              LittleEndian fs path limit
            = Return [invalid_magic_number] [])).
Proof.
  intros E H0. pose proof (read_header_little_endian _ _ _ H0) as Hr.
  split; intros Hm; split; intros.
  - apply (image_invalid_magic pixel_cast LittleEndian fs path buffer magic);
      assumption.
  - unfold ReturnByValue.read_mnist_image_file. rewrite E, Hr. simpl.
    destruct (decide (magic ≠ 2051)); [reflexivity | contradiction].
  - apply (label_invalid_magic label_cast label_init LittleEndian fs path
             buffer magic); assumption.
  - unfold ReturnByValue.read_mnist_label_file. rewrite E, Hr. simpl.
    destruct (decide (magic ≠ 2049)); [reflexivity | contradiction].
Qed.

Lemma invalid_magic_number_rejected_witness :
  ((forall images limit func,
      read_mnist_image_file uint8 LittleEndian
        (one_file "labels" (label_file 0x801 1 [x07])) images "labels"
        limit func
      = Return [invalid_magic_number] images)
   /\ (forall limit,
         ReturnByValue.read_mnist_image_file uint8 0 LittleEndian
           (one_file "labels" (label_file 0x801 1 [x07])) "labels" limit
         = Return [invalid_magic_number] []))
  /\ ((forall labels limit,
         read_mnist_label_file uint8 0 LittleEndian
           (one_file "images" (image_file 0x803 1 1 1 [x09])) labels "images"
           limit
         = Return [invalid_magic_number] labels)
      /\ (forall limit,
            ReturnByValue.read_mnist_label_file uint8 0 LittleEndian
              (one_file "images" (image_file 0x803 1 1 1 [x09])) "images"
              limit
            = Return [invalid_magic_number] [])).
Proof.
  split.
  - apply (proj1 (invalid_magic_number_rejected uint8 uint8 0 0
                    (one_file "labels" (label_file 0x801 1 [x07])) "labels"
                    (label_file 0x801 1 [x07]) 0x801 eq_refl eq_refl)).
    discriminate.
  - apply (proj2 (invalid_magic_number_rejected uint8 uint8 0 0
                    (one_file "images" (image_file 0x803 1 1 1 [x09]))
                    "images" (image_file 0x803 1 1 1 [x09]) 0x803 eq_refl
                    eq_refl)).
    discriminate.
Defined.

(** ** Truncation of a dataset *)

Section Resize.
Context {Pixel Label : Type}.
Variable label_init : Label.

Lemma resize_training_shrinks new_size (dataset : MNIST_dataset Pixel Label) :
  (new_size < length (training_images dataset))%nat ->
  length (training_images (resize_training label_init new_size dataset))
  = new_size
  /\ length (training_labels (resize_training label_init new_size dataset))
     = new_size.
Proof.
  intros H. unfold resize_training.
  destruct (decide _); [|contradiction]. simpl.
  rewrite !length_resize. auto.
Qed.

Lemma resize_training_keeps new_size (dataset : MNIST_dataset Pixel Label) :
  (length (training_images dataset) <= new_size)%nat ->
  resize_training label_init new_size dataset = dataset.
Proof.
  intros H. unfold resize_training. destruct (decide _); [lia | reflexivity].
Qed.

Lemma resize_test_shrinks new_size (dataset : MNIST_dataset Pixel Label) :
  (new_size < length (test_images dataset))%nat ->
  length (test_images (resize_test label_init new_size dataset)) = new_size
  /\ length (test_labels (resize_test label_init new_size dataset))
     = new_size.
Proof.
  intros H. unfold resize_test.
  destruct (decide _); [|contradiction]. simpl.
  rewrite !length_resize. auto.
Qed.

Lemma resize_test_keeps new_size (dataset : MNIST_dataset Pixel Label) :
  (length (test_images dataset) <= new_size)%nat ->
  resize_test label_init new_size dataset = dataset.
Proof.
  intros H. unfold resize_test. destruct (decide _); [lia | reflexivity].
Qed.

Lemma apply_resize_counts_agree (dataset : MNIST_dataset Pixel Label) op :
  counts_agree dataset -> counts_agree (apply_resize label_init dataset op).
Proof.
  intros [Htrain Htest]. destruct op as [new_size | new_size]; simpl.
  - unfold resize_training. destruct (decide _); [|split; assumption].
    split; simpl; [rewrite !length_resize; reflexivity | assumption].
  - unfold resize_test. destruct (decide _); [|split; assumption].
    split; simpl; [assumption | rewrite !length_resize; reflexivity].
Qed.

Lemma resizes_counts_agree ops :
  forall dataset : MNIST_dataset Pixel Label,
  counts_agree dataset ->
  counts_agree (foldl (apply_resize label_init) dataset ops).
Proof.
  induction ops as [|op ops IH]; intros dataset H; simpl.
  - exact H.
  - apply IH, apply_resize_counts_agree, H.
Qed.

End Resize.

(** C6: for every dataset and every [n], [resize_training n] with [n] less
    than the current training size leaves [training_images] and
    [training_labels] with length exactly [n], and with [n] greater than or
    equal to the current size it leaves the dataset unchanged; likewise
    [resize_test] on the test split. *)
Theorem resize_truncates_or_keeps {Pixel Label} (label_init : Label)
    (n : nat) (dataset : MNIST_dataset Pixel Label) :
  ((n < length (training_images dataset))%nat ->
   length (training_images (resize_training label_init n dataset)) = n
   /\ length (training_labels (resize_training label_init n dataset)) = n)
  /\ ((length (training_images dataset) <= n)%nat ->
      resize_training label_init n dataset = dataset)
  /\ ((n < length (test_images dataset))%nat ->
      length (test_images (resize_test label_init n dataset)) = n
      /\ length (test_labels (resize_test label_init n dataset)) = n)
  /\ ((length (test_images dataset) <= n)%nat ->
      resize_test label_init n dataset = dataset).
Proof.
  split; [apply resize_training_shrinks|].
  split; [apply resize_training_keeps|].
  split; [apply resize_test_shrinks | apply resize_test_keeps].
Qed.

Lemma resize_truncates_or_keeps_witness :
  (length (training_images
             (resize_training 0 1
                {| training_images := [[1]; [2]; [3]];
                   test_images := [[4]; [5]];
                   training_labels := [7; 2; 9];
                   test_labels := [0; 6] |})) = 1%nat
   /\ length (training_labels
                (resize_training 0 1
                   {| training_images := [[1]; [2]; [3]];
                      test_images := [[4]; [5]];
                      training_labels := [7; 2; 9];
                      test_labels := [0; 6] |})) = 1%nat)
  /\ resize_test 0 2
       {| training_images := [[1]; [2]; [3]];
          test_images := [[4]; [5]];
          training_labels := [7; 2; 9];
          test_labels := [0; 6] |}
     = {| training_images := [[1]; [2]; [3]];
          test_images := [[4]; [5]];
          training_labels := [7; 2; 9];
          test_labels := [0; 6] |}.
Proof.
  destruct (resize_truncates_or_keeps 0 1
              {| training_images := [[1]; [2]; [3]];
                 test_images := [[4]; [5]];
                 training_labels := [7; 2; 9];
                 test_labels := [0; 6] |}) as (Hshrink & _).
  destruct (resize_truncates_or_keeps 0 2
              {| training_images := [[1]; [2]; [3]];
                 test_images := [[4]; [5]];
                 training_labels := [7; 2; 9];
                 test_labels := [0; 6] |}) as (_ & _ & _ & Hkeep).
  split; [apply Hshrink; simpl; lia | apply Hkeep; simpl; lia].
Defined.

(** ** The assembler *)

(** C7: on a little-endian host, when the four files are well formed
    (magic number, declared payload present) and each image file declares
    the same item count as its label file, every dataset that
    [read_dataset_direct] produces has as many images as labels in each
    split, and every sequence of [resize_training] and [resize_test]
    operations keeps it so.  A dataset is produced whenever the images of
    the files are no larger than the 28 by 28 objects that the assembler
    creates for them. *)
Theorem read_dataset_direct_counts_agree {Pixel Label}
    (pixel_cast : byte -> Pixel) (label_cast : byte -> Label)
    (pixel_init : Pixel) (label_init : Label) (fs : filesystem)
    (training_limit test_limit : nat)
    (train_images train_labels t10k_images t10k_labels : list byte)
    (train_count train_rows train_columns : Z)
    (t10k_count t10k_rows t10k_columns : Z) :
  fs "mnist/train-images-idx3-ubyte" = Some train_images ->
  fs "mnist/train-labels-idx1-ubyte" = Some train_labels ->
  fs "mnist/t10k-images-idx3-ubyte" = Some t10k_images ->
  fs "mnist/t10k-labels-idx1-ubyte" = Some t10k_labels ->
  image_file_well_formed train_images train_count train_rows train_columns ->
  label_file_well_formed train_labels train_count ->
  image_file_well_formed t10k_images t10k_count t10k_rows t10k_columns ->
  label_file_well_formed t10k_labels t10k_count ->
  (forall out dataset,
     read_dataset_direct pixel_cast label_cast pixel_init label_init
       LittleEndian fs training_limit test_limit
     = Return out dataset ->
     counts_agree dataset
     /\ forall ops : list resize_operation,
          counts_agree (foldl (apply_resize label_init) dataset ops))
  /\ (train_rows * train_columns <= 1 * 28 * 28 ->
      t10k_rows * t10k_columns <= 1 * 28 * 28 ->
      exists dataset,
        read_dataset_direct pixel_cast label_cast pixel_init label_init
          LittleEndian fs training_limit test_limit
        = Return [] dataset).
Proof.
  intros E1 E2 E3 E4 W1 W2 W3 W4.
  assert (Hflat : length (flat_image pixel_init tt) = 784%nat)
    by apply length_replicate.
  assert (Hagree : forall buffer count limit,
            label_file_well_formed buffer count ->
            length (take (requested limit count) (drop 8 buffer))
            = requested limit count).
  { intros buffer count limit (_ & H1 & Hs).
    pose proof (header_word_range _ _ _ H1).
    pose proof (requested_le limit count).
    rewrite length_take, length_drop. lia. }
  unfold read_dataset_direct, read_training_images, read_training_labels,
    read_test_images, read_test_labels.
  rewrite (read_mnist_label_file_decodes label_cast label_init fs _ _ _ _ _
             E2 W2).
  rewrite (read_mnist_label_file_decodes label_cast label_init fs _ _ _ _ _
             E4 W4).
  split.
  - intros out dataset.
    destruct (read_mnist_image_file pixel_cast LittleEndian fs []
                "mnist/train-images-idx3-ubyte" training_limit
                (flat_image pixel_init)) as [out1 images1|] eqn:R1;
      [|discriminate].
    destruct (read_mnist_image_file pixel_cast LittleEndian fs []
                "mnist/t10k-images-idx3-ubyte" test_limit
                (flat_image pixel_init)) as [out2 images2|] eqn:R2;
      [|discriminate].
    destruct (read_mnist_image_file_count pixel_cast fs _ _ _ _ _ _ _ _ _
                E1 W1 R1) as [_ L1].
    destruct (read_mnist_image_file_count pixel_cast fs _ _ _ _ _ _ _ _ _
                E3 W3 R2) as [_ L2].
    simpl. intros [= _ <-].
    match goal with |- counts_agree ?d /\ _ => assert (Hd : counts_agree d) end.
    { split; simpl; rewrite length_fmap, Hagree by assumption; assumption. }
    split; [exact Hd|].
    intros ops. apply resizes_counts_agree, Hd.
  - intros G1 G2.
    rewrite (read_mnist_image_file_decodes pixel_cast fs _ _ _ _ _ _ _ E1 W1)
      by (rewrite ?Hflat; lia).
    rewrite (read_mnist_image_file_decodes pixel_cast fs _ _ _ _ _ _ _ E3 W3)
      by (rewrite ?Hflat; lia).
    eexists. reflexivity.
Qed.

Lemma read_dataset_direct_counts_agree_witness :
  (forall out dataset,
     read_dataset_direct uint8 uint8 0 0 LittleEndian
       (mnist_directory
          (image_file 0x803 2 1 2 [x01; x02; x03; x04])
          (label_file 0x801 2 [x07; x02])
          (image_file 0x803 1 1 1 [x09])
          (label_file 0x801 1 [x03]))
       0 0
     = Return out dataset ->
     counts_agree dataset
     /\ forall ops : list resize_operation,
          counts_agree (foldl (apply_resize 0) dataset ops))
  /\ (1 * 2 <= 1 * 28 * 28 ->
      1 * 1 <= 1 * 28 * 28 ->
      exists dataset,
        read_dataset_direct uint8 uint8 0 0 LittleEndian
          (mnist_directory
             (image_file 0x803 2 1 2 [x01; x02; x03; x04])
             (label_file 0x801 2 [x07; x02])
             (image_file 0x803 1 1 1 [x09])
             (label_file 0x801 1 [x03]))
          0 0
        = Return [] dataset).
Proof.
  apply (read_dataset_direct_counts_agree uint8 uint8 0 0
           (mnist_directory
              (image_file 0x803 2 1 2 [x01; x02; x03; x04])
              (label_file 0x801 2 [x07; x02])
              (image_file 0x803 1 1 1 [x09])
              (label_file 0x801 1 [x03]))
           0 0
           (image_file 0x803 2 1 2 [x01; x02; x03; x04])
           (label_file 0x801 2 [x07; x02])
           (image_file 0x803 1 1 1 [x09])
           (label_file 0x801 1 [x03])
           2 1 2 1 1 1);
    try reflexivity;
    repeat split; try reflexivity; vm_compute; discriminate.
Defined.

(** An image file whose images have more than 28 by 28 pixels makes the
    assembler write past the image that its functor created: no dataset
    is produced. *)
Lemma wide_image_overruns_flat_image :
  image_file_well_formed
    (image_file 0x803 1 1 785 (replicate 785 x00)) 1 1 785
  /\ read_dataset_direct uint8 uint8 0 0 LittleEndian
       (mnist_directory
          (image_file 0x803 1 1 785 (replicate 785 x00))
          (label_file 0x801 1 [x07])
          (image_file 0x803 1 1 1 [x09])
          (label_file 0x801 1 [x03]))
       0 0
     = Crash ImageOutOfRange.
Proof.
  split.
  - repeat split; try reflexivity; vm_compute; discriminate.
  - vm_compute. reflexivity.
Qed.

(** ** The synthetic files *)

(** C8, as stated, fails with the functor of [read_dataset_direct]: the
    image file with header [(0x803, 2, 2, 2)] and payload
    [1 2 3 4 5 6 7 8] is decoded to two images of 784 elements, the
    payload bytes followed by 780 zeros. *)
Lemma synthetic_images_counterexample :
  read_mnist_image_file uint8 LittleEndian
    (one_file "images"
       (image_file 0x803 2 2 2 [x01; x02; x03; x04; x05; x06; x07; x08]))
    [] "images" 0 (flat_image 0)
  = Return [] [[1; 2; 3; 4] ++ replicate 780 0;
               [5; 6; 7; 8] ++ replicate 780 0]
  /\ [[1; 2; 3; 4] ++ replicate 780 0; [5; 6; 7; 8] ++ replicate 780 0]
     <> [[1; 2; 3; 4]; [5; 6; 7; 8]].
Proof.
  split; [vm_compute; reflexivity|]. vm_compute. discriminate.
Qed.

(** C8 (amended): on a little-endian host, the image file with header
    [(0x803, 2, 2, 2)] and payload [1 2 3 4 5 6 7 8], read without a
    limit into an empty container with a functor that creates images of
    4 elements, gives exactly the images [1 2 3 4] and [5 6 7 8] in that
    order, and so does the variant that returns its container, which
    needs no functor; the label file with header [(0x801, 3)] and payload
    [7 2 9] gives exactly the labels [7 2 9] in that order. *)
Theorem synthetic_files_decode (func : unit -> list Z) (labels : list Z) :
  length (func tt) = 4%nat ->
  read_mnist_image_file uint8 LittleEndian
    (one_file "images"
       (image_file 0x803 2 2 2 [x01; x02; x03; x04; x05; x06; x07; x08]))
    [] "images" 0 func
  = Return [] [[1; 2; 3; 4]; [5; 6; 7; 8]]
  /\ ReturnByValue.read_mnist_image_file uint8 0 LittleEndian
       (one_file "images"
          (image_file 0x803 2 2 2 [x01; x02; x03; x04; x05; x06; x07; x08]))
       "images" 0
     = Return [] [[1; 2; 3; 4]; [5; 6; 7; 8]]
  /\ read_mnist_label_file uint8 0 LittleEndian
       (one_file "labels" (label_file 0x801 3 [x07; x02; x09]))
       labels "labels" 0
     = Return [] [7; 2; 9]
  /\ ReturnByValue.read_mnist_label_file uint8 0 LittleEndian
       (one_file "labels" (label_file 0x801 3 [x07; x02; x09])) "labels" 0
     = Return [] [7; 2; 9].
Proof.
  intros Hf. split; [|split; [|split]].
  - rewrite (read_mnist_image_file_decodes uint8 _ "images"
               (image_file 0x803 2 2 2
                  [x01; x02; x03; x04; x05; x06; x07; x08]) 2 2 2);
      try reflexivity.
    + unfold decoded_image.
      rewrite (drop_ge (func tt)) by (rewrite Hf; simpl; lia).
      reflexivity.
    + repeat split; try reflexivity; vm_compute; discriminate.
    + rewrite Hf. simpl. lia.
  - vm_compute. reflexivity.
  - rewrite (read_mnist_label_file_decodes uint8 0 _ "labels"
               (label_file 0x801 3 [x07; x02; x09]) 3);
      try reflexivity.
    repeat split; try reflexivity; vm_compute; discriminate.
  - vm_compute. reflexivity.
Qed.

Lemma synthetic_files_decode_witness :
  read_mnist_image_file uint8 LittleEndian
    (one_file "images"
       (image_file 0x803 2 2 2 [x01; x02; x03; x04; x05; x06; x07; x08]))
    [] "images" 0 (fun _ => [0; 0; 0; 0])
  = Return [] [[1; 2; 3; 4]; [5; 6; 7; 8]]
  /\ ReturnByValue.read_mnist_image_file uint8 0 LittleEndian
       (one_file "images"
          (image_file 0x803 2 2 2 [x01; x02; x03; x04; x05; x06; x07; x08]))
       "images" 0
     = Return [] [[1; 2; 3; 4]; [5; 6; 7; 8]]
  /\ read_mnist_label_file uint8 0 LittleEndian
       (one_file "labels" (label_file 0x801 3 [x07; x02; x09]))
       [] "labels" 0
     = Return [] [7; 2; 9]
  /\ ReturnByValue.read_mnist_label_file uint8 0 LittleEndian
       (one_file "labels" (label_file 0x801 3 [x07; x02; x09])) "labels" 0
     = Return [] [7; 2; 9].
Proof.
  apply (synthetic_files_decode (fun _ => [0; 0; 0; 0]) []). reflexivity.
Defined.

(** ** How failures reach the caller *)

(** C9, as stated, fails: a reader returns nothing but the container, so a
    missing file, a file of the wrong kind and a truncated file all give
    the caller what a well-formed file with no item gives. *)
Lemma failure_indistinguishable_from_empty_success :
  read_mnist_image_file uint8 LittleEndian
    (one_file "images" (image_file 0x803 0 28 28 [])) [] "images" 0
    (flat_image 0)
  = Return [] []
  /\ read_mnist_image_file uint8 LittleEndian (fun _ => None) [] "images" 0
       (flat_image 0)
     = Return [error_opening_file] []
  /\ returned (read_mnist_image_file uint8 LittleEndian (fun _ => None) []
                 "images" 0 (flat_image 0))
     = returned (read_mnist_image_file uint8 LittleEndian
                   (one_file "images" (image_file 0x803 0 28 28 [])) []
                   "images" 0 (flat_image 0))
  /\ returned (read_mnist_image_file uint8 LittleEndian
                 (one_file "images" (image_file 0x801 0 28 28 [])) []
                 "images" 0 (flat_image 0))
     = returned (read_mnist_image_file uint8 LittleEndian
                   (one_file "images" (image_file 0x803 0 28 28 [])) []
                   "images" 0 (flat_image 0))
  /\ returned (read_mnist_image_file uint8 LittleEndian
                 (one_file "images" (image_file 0x803 1 28 28 [])) []
                 "images" 0 (flat_image 0))
     = returned (read_mnist_image_file uint8 LittleEndian
                   (one_file "images" (image_file 0x803 0 28 28 [])) []
                   "images" 0 (flat_image 0))
  /\ returned (read_mnist_label_file uint8 0 LittleEndian (fun _ => None) []
                 "labels" 0)
     = returned (read_mnist_label_file uint8 0 LittleEndian
                   (one_file "labels" (label_file 0x801 0 [])) [] "labels" 0).
Proof. repeat split; vm_compute; reflexivity. Qed.

Lemma read_header_ok_length host (buffer : list byte) position value :
  read_header host buffer position = Ok value ->
  (4 * position + 3 < length buffer)%nat.
Proof.
  unfold read_header, load_uint32, load.
  destruct (buffer !! (4 * position)%nat); [|discriminate].
  cbn [mbind result_bind].
  destruct (buffer !! (4 * position + 1)%nat); [|discriminate].
  cbn [mbind result_bind].
  destruct (buffer !! (4 * position + 2)%nat); [|discriminate].
  cbn [mbind result_bind].
  destruct (buffer !! (4 * position + 3)%nat) as [b3|] eqn:E3;
    [|discriminate].
  intros _. apply (lookup_lt_Some _ _ _ E3).
Qed.

(** An image file that declares no image is decoded with no output and
    leaves the container as it was. *)
Lemma image_file_without_items {Pixel} (pixel_cast : byte -> Pixel)
    (host : endianness) (fs : filesystem) (path : string)
    (buffer : list byte) (rows columns : Z) (images : list (list Pixel))
    (limit : nat) (func : unit -> list Pixel) :
  fs path = Some buffer ->
  read_header host buffer 0 = Ok 0x803 ->
  read_header host buffer 1 = Ok 0 ->
  read_header host buffer 2 = Ok rows ->
  read_header host buffer 3 = Ok columns ->
  read_mnist_image_file pixel_cast host fs images path limit func
  = Return [] images.
Proof.
  intros E H0 H1 H2 H3.
  pose proof (read_header_ok_length _ _ _ _ H3) as Hlen.
  unfold read_mnist_image_file. rewrite E, H0. simpl.
  destruct (decide (2051 ≠ 2051)) as [Hm|_]; [contradiction|].
  rewrite H1, H2, H3. simpl.
  replace (add32 (mul32 (mul32 0 rows) columns) 16) with 16 by reflexivity.
  destruct (decide _) as [Hbad|_]; [lia|].
  replace (apply_limit limit 0) with 0; [reflexivity|].
  unfold apply_limit. destruct (0 <? limit)%nat; simpl; [|reflexivity].
  destruct (Z.ltb_spec (Z.of_nat limit) 0); [lia | reflexivity].
Qed.

(** A label file that declares no label is decoded with no output and
    leaves the container empty. *)
Lemma label_file_without_items {Label} (label_cast : byte -> Label)
    (label_init : Label) (host : endianness) (fs : filesystem)
    (path : string) (buffer : list byte) (labels : list Label)
    (limit : nat) :
  fs path = Some buffer ->
  read_header host buffer 0 = Ok 0x801 ->
  read_header host buffer 1 = Ok 0 ->
  read_mnist_label_file label_cast label_init host fs labels path limit
  = Return [] [].
Proof.
  intros E H0 H1.
  pose proof (read_header_ok_length _ _ _ _ H1) as Hlen.
  unfold read_mnist_label_file. rewrite E, H0. simpl.
  destruct (decide (2049 ≠ 2049)) as [Hm|_]; [contradiction|].
  rewrite H1. simpl.
  replace (add32 0 8) with 8 by reflexivity.
  destruct (decide _) as [Hbad|_]; [lia|].
  replace (apply_limit limit 0) with 0;
    [change (Z.to_nat 0) with 0%nat; rewrite resize_0; reflexivity|].
  unfold apply_limit. destruct (0 <? limit)%nat; simpl; [|reflexivity].
  destruct (Z.ltb_spec (Z.of_nat limit) 0); [lia | reflexivity].
Qed.

(** C9 (amended): for every input on which a reader detects a file-open
    failure, a magic-number mismatch or a size-check failure, it writes to
    the standard output the diagnostic line of that failure, the three
    lines being different from one another, and returns with the container
    as it was; a run that writes no line has passed the three checks.  The
    reader returns no error value to its caller: the container as it was
    on entry is also what the decoding of an image file with no item
    leaves, and the decoding of a label file with no item leaves the
    container empty, which is what a failure leaves of a container that
    was empty on entry. *)
Theorem failures_are_reported_on_cout {Pixel Label}
    (pixel_cast : byte -> Pixel) (label_cast : byte -> Label)
    (label_init : Label) (host : endianness) (fs : filesystem)
    (path : string) (images : list (list Pixel)) (labels : list Label)
    (limit : nat) (func : unit -> list Pixel) :
  (fs path = None ->
   read_mnist_image_file pixel_cast host fs images path limit func
   = Return [error_opening_file] images
   /\ read_mnist_label_file label_cast label_init host fs labels path limit
      = Return [error_opening_file] labels)
  /\ (forall buffer magic,
        fs path = Some buffer ->
        read_header host buffer 0 = Ok magic ->
        (magic <> 0x803 ->
         read_mnist_image_file pixel_cast host fs images path limit func
         = Return [invalid_magic_number] images)
        /\ (magic <> 0x801 ->
            read_mnist_label_file label_cast label_init host fs labels path
              limit
            = Return [invalid_magic_number] labels))
  /\ (forall buffer count rows columns,
        fs path = Some buffer ->
        read_header host buffer 0 = Ok 0x803 ->
        read_header host buffer 1 = Ok count ->
        read_header host buffer 2 = Ok rows ->
        read_header host buffer 3 = Ok columns ->
        Z.of_nat (length buffer)
        < add32 (mul32 (mul32 count rows) columns) 16 ->
        read_mnist_image_file pixel_cast host fs images path limit func
        = Return [file_not_large_enough] images)
  /\ (forall buffer count,
        fs path = Some buffer ->
        read_header host buffer 0 = Ok 0x801 ->
        read_header host buffer 1 = Ok count ->
        Z.of_nat (length buffer) < add32 count 8 ->
        read_mnist_label_file label_cast label_init host fs labels path limit
        = Return [file_not_large_enough] labels)
  /\ (error_opening_file <> invalid_magic_number
      /\ error_opening_file <> file_not_large_enough
      /\ invalid_magic_number <> file_not_large_enough)
  /\ (forall images',
        read_mnist_image_file pixel_cast host fs images path limit func
        = Return [] images' ->
        image_checks_pass host fs path)
  /\ (forall labels',
        read_mnist_label_file label_cast label_init host fs labels path limit
        = Return [] labels' ->
        label_checks_pass host fs path)
  /\ (forall fs0 path0 buffer0 rows columns,
        fs0 path0 = Some buffer0 ->
        read_header host buffer0 0 = Ok 0x803 ->
        read_header host buffer0 1 = Ok 0 ->
        read_header host buffer0 2 = Ok rows ->
        read_header host buffer0 3 = Ok columns ->
        read_mnist_image_file pixel_cast host fs0 images path0 limit func
        = Return [] images)
  /\ (forall fs0 path0 buffer0,
        fs0 path0 = Some buffer0 ->
        read_header host buffer0 0 = Ok 0x801 ->
        read_header host buffer0 1 = Ok 0 ->
        read_mnist_label_file label_cast label_init host fs0 labels path0
          limit
        = Return [] []).
Proof.
  split.
  { intros E. split;
      [apply image_open_failure | apply label_open_failure]; exact E. }
  split.
  { intros buffer magic E E0. split; intros Hm.
    - apply (image_invalid_magic pixel_cast host fs path buffer magic);
        assumption.
    - apply (label_invalid_magic label_cast label_init host fs path buffer
               magic); assumption. }
  split.
  { intros buffer count rows columns E E0 E1 E2 E3 Hs.
    apply (image_too_small pixel_cast host fs path buffer count rows columns);
      assumption. }
  split.
  { intros buffer count E E0 E1 Hs.
    apply (label_too_small label_cast label_init host fs path buffer count);
      assumption. }
  split.
  { repeat split; discriminate. }
  split.
  { intros images' Hrun.
    destruct (image_run_cases _ _ _ _ _ _ _ _ _ Hrun)
      as [[_ Hpass] | [_ [Hout | [Hout | Hout]]]];
      [exact Hpass | discriminate Hout ..]. }
  split.
  { intros labels' Hrun.
    destruct (label_run_cases _ _ _ _ _ _ _ _ _ Hrun)
      as [[_ Hpass] | [_ [Hout | [Hout | Hout]]]];
      [exact Hpass | discriminate Hout ..]. }
  split.
  - intros fs0 path0 buffer0 rows columns E H0 H1 H2 H3.
    apply (image_file_without_items pixel_cast host fs0 path0 buffer0 rows
             columns); assumption.
  - intros fs0 path0 buffer0 E H0 H1.
    apply (label_file_without_items label_cast label_init host fs0 path0
             buffer0); assumption.
Qed.

Lemma failures_are_reported_on_cout_witness :
  read_mnist_image_file uint8 LittleEndian (fun _ => None) [[1; 2]] "images"
    0 (flat_image 0)
  = Return [error_opening_file] [[1; 2]]
  /\ read_mnist_label_file uint8 0 LittleEndian (fun _ => None) [7] "images"
       0
     = Return [error_opening_file] [7].
Proof.
  destruct (failures_are_reported_on_cout uint8 uint8 0 LittleEndian
              (fun _ => None) "images" [[1; 2]] [7] 0 (flat_image 0))
    as [Hopen _].
  apply Hopen. reflexivity.
Defined.

(** ** The container on the failure paths *)

(** C10: on every failure path of [read_mnist_image_file] and
    [read_mnist_label_file] (the file fails to open, the magic number
    mismatches, the size check fails) the function returns with the
    caller's container exactly as it was on entry; a run that returns a
    container different from the one it was given has passed the three
    checks. *)
Theorem failure_paths_leave_container_unchanged {Pixel Label}
    (pixel_cast : byte -> Pixel) (label_cast : byte -> Label)
    (label_init : Label) (host : endianness) (fs : filesystem)
    (path : string) (images : list (list Pixel)) (labels : list Label)
    (limit : nat) (func : unit -> list Pixel) :
  (fs path = None ->
   returned (read_mnist_image_file pixel_cast host fs images path limit func)
   = Some images
   /\ returned (read_mnist_label_file label_cast label_init host fs labels
                  path limit)
      = Some labels)
  /\ (forall buffer magic,
        fs path = Some buffer ->
        read_header host buffer 0 = Ok magic ->
        (magic <> 0x803 ->
         returned (read_mnist_image_file pixel_cast host fs images path limit
                     func)
         = Some images)
        /\ (magic <> 0x801 ->
            returned (read_mnist_label_file label_cast label_init host fs
                        labels path limit)
            = Some labels))
  /\ (forall buffer count rows columns,
        fs path = Some buffer ->
        read_header host buffer 0 = Ok 0x803 ->
        read_header host buffer 1 = Ok count ->
        read_header host buffer 2 = Ok rows ->
        read_header host buffer 3 = Ok columns ->
        Z.of_nat (length buffer)
        < add32 (mul32 (mul32 count rows) columns) 16 ->
        returned (read_mnist_image_file pixel_cast host fs images path limit
                    func)
        = Some images)
  /\ (forall buffer count,
        fs path = Some buffer ->
        read_header host buffer 0 = Ok 0x801 ->
        read_header host buffer 1 = Ok count ->
        Z.of_nat (length buffer) < add32 count 8 ->
        returned (read_mnist_label_file label_cast label_init host fs labels
                    path limit)
        = Some labels)
  /\ (forall out images',
        read_mnist_image_file pixel_cast host fs images path limit func
        = Return out images' ->
        images' <> images ->
        out = [] /\ image_checks_pass host fs path)
  /\ (forall out labels',
        read_mnist_label_file label_cast label_init host fs labels path limit
        = Return out labels' ->
        labels' <> labels ->
        out = [] /\ label_checks_pass host fs path).
Proof.
  split.
  { intros E.
    rewrite (image_open_failure pixel_cast host fs path images limit func E),
      (label_open_failure label_cast label_init host fs path labels limit E).
    split; reflexivity. }
  split.
  { intros buffer magic E E0. split; intros Hm.
    - rewrite (image_invalid_magic pixel_cast host fs path buffer magic)
        by assumption. reflexivity.
    - rewrite (label_invalid_magic label_cast label_init host fs path buffer
                 magic) by assumption. reflexivity. }
  split.
  { intros buffer count rows columns E E0 E1 E2 E3 Hs.
    rewrite (image_too_small pixel_cast host fs path buffer count rows
               columns) by assumption. reflexivity. }
  split.
  { intros buffer count E E0 E1 Hs.
    rewrite (label_too_small label_cast label_init host fs path buffer count)
      by assumption. reflexivity. }
  split.
  - intros out images' Hrun Hne.
    destruct (image_run_cases _ _ _ _ _ _ _ _ _ Hrun) as [Hpass | [Heq _]];
      [exact Hpass | contradiction].
  - intros out labels' Hrun Hne.
    destruct (label_run_cases _ _ _ _ _ _ _ _ _ Hrun) as [Hpass | [Heq _]];
      [exact Hpass | contradiction].
Qed.

Lemma failure_paths_leave_container_unchanged_witness :
  returned (read_mnist_image_file uint8 LittleEndian
              (one_file "images" (image_file 0x803 3 2 2 [x01; x02; x03]))
              [[1; 2]] "images" 0 (flat_image 0))
  = Some [[1; 2]].
Proof.
  destruct (failure_paths_leave_container_unchanged uint8 uint8 0
              LittleEndian
              (one_file "images" (image_file 0x803 3 2 2 [x01; x02; x03]))
              "images" [[1; 2]] [7] 0 (flat_image 0))
    as (_ & _ & Hsmall & _).
  apply (Hsmall (image_file 0x803 3 2 2 [x01; x02; x03]) 3 2 2);
    try reflexivity.
Defined.

(** * Further properties of the reader *)

(** ** The header reader at the bounds of the buffer *)

Lemma word_digits v :
  0 <= v < 2 ^ 32 ->
  exists a b c d,
    0 <= a < 256 /\ 0 <= b < 256 /\ 0 <= c < 256 /\ 0 <= d < 256
    /\ v = a + b * 2 ^ 8 + c * 2 ^ 16 + d * 2 ^ 24.
Proof.
  intros Hv.
  exists (v mod 2 ^ 8), ((v / 2 ^ 8) mod 2 ^ 8), ((v / 2 ^ 16) mod 2 ^ 8),
    (v / 2 ^ 24).
  change (2 ^ 8) with 256. change (2 ^ 16) with 65536.
  change (2 ^ 24) with 16777216. change (2 ^ 32) with 4294967296 in Hv.
  Z.div_mod_to_equations. lia.
Qed.

Lemma swap_bytes_range v : 0 <= v < 2 ^ 32 -> 0 <= swap_bytes v < 2 ^ 32.
Proof.
  intros Hv. destruct (word_digits v Hv) as (a & b & c & d & Ha & Hb & Hc & Hd & ->).
  rewrite swap_bytes_digits by assumption. lia.
Qed.

(** X1: Swapping the bytes of a 32-bit word twice gives the word back, and the
    swapped word is again a 32-bit word. *)
Theorem swap_bytes_involutive (value : Z) :
  0 <= value < 2 ^ 32 ->
  swap_bytes (swap_bytes value) = value /\ 0 <= swap_bytes value < 2 ^ 32.
Proof.
  intros Hv. split; [|apply swap_bytes_range, Hv].
  destruct (word_digits value Hv)
    as (a & b & c & d & Ha & Hb & Hc & Hd & ->).
  rewrite swap_bytes_digits by assumption.
  rewrite swap_bytes_digits by assumption. reflexivity.
Qed.

Lemma swap_bytes_involutive_witness :
  swap_bytes (swap_bytes 0x00000803) = 0x00000803
  /\ 0 <= swap_bytes 0x00000803 < 2 ^ 32.
Proof. apply (swap_bytes_involutive 0x00000803). lia. Defined.

Lemma load_past_the_end (buffer : list byte) i :
  (length buffer <= i)%nat -> load buffer i = Undefined BufferOverread.
Proof.
  intros H. unfold load. rewrite (lookup_ge_None_2 buffer i H). reflexivity.
Qed.

Lemma read_header_in_bounds host (buffer : list byte) position :
  (4 * (position + 1) <= length buffer)%nat ->
  exists value,
    read_header host buffer position = Ok value /\ 0 <= value < 2 ^ 32.
Proof.
  intros Hlen.
  destruct (four_bytes_available buffer position Hlen)
    as (b0 & b1 & b2 & b3 & E0 & E1 & E2 & E3).
  exists (swap_bytes (native_uint32 host b0 b1 b2 b3)). split.
  - unfold read_header.
    rewrite (load_uint32_lookup host _ _ _ _ _ _ E0 E1 E2 E3). reflexivity.
  - apply swap_bytes_range, native_uint32_range.
Qed.

Lemma read_header_out_of_bounds host (buffer : list byte) position :
  (length buffer < 4 * (position + 1))%nat ->
  read_header host buffer position = Undefined BufferOverread.
Proof.
  intros Hlen. unfold read_header, load_uint32.
  destruct (decide (length buffer <= 4 * position)%nat) as [H0|H0].
  { rewrite (load_past_the_end _ _ H0). reflexivity. }
  destruct (lookup_lt_is_Some_2 buffer (4 * position)) as [b0 E0]; [lia|].
  rewrite (load_lookup _ _ _ E0). cbn [mbind result_bind].
  destruct (decide (length buffer <= 4 * position + 1)%nat) as [H1|H1].
  { rewrite (load_past_the_end _ _ H1). reflexivity. }
  destruct (lookup_lt_is_Some_2 buffer (4 * position + 1)) as [b1 E1]; [lia|].
  rewrite (load_lookup _ _ _ E1). cbn [mbind result_bind].
  destruct (decide (length buffer <= 4 * position + 2)%nat) as [H2|H2].
  { rewrite (load_past_the_end _ _ H2). reflexivity. }
  destruct (lookup_lt_is_Some_2 buffer (4 * position + 2)) as [b2 E2]; [lia|].
  rewrite (load_lookup _ _ _ E2). cbn [mbind result_bind].
  rewrite load_past_the_end by lia. reflexivity.
Qed.

(** X2: [read_header] needs the four bytes of the word: with them it returns a
    32-bit value, on any host; with fewer it reads past the end of the
    buffer. *)
Theorem read_header_bounds (host : endianness) (buffer : list byte)
    (position : nat) :
  ((4 * (position + 1) <= length buffer)%nat ->
   exists value,
     read_header host buffer position = Ok value /\ 0 <= value < 2 ^ 32)
  /\ ((length buffer < 4 * (position + 1))%nat ->
      read_header host buffer position = Undefined BufferOverread).
Proof.
  split; [apply read_header_in_bounds | apply read_header_out_of_bounds].
Qed.

Lemma read_header_bounds_witness :
  (exists value,
     read_header LittleEndian [x00; x00; x08; x01; x00; x00; x00] 0 = Ok value
     /\ 0 <= value < 2 ^ 32)
  /\ read_header LittleEndian [x00; x00; x08; x01; x00; x00; x00] 1
     = Undefined BufferOverread.
Proof.
  split.
  - apply (proj1 (read_header_bounds LittleEndian
                    [x00; x00; x08; x01; x00; x00; x00] 0)). simpl. lia.
  - apply (proj2 (read_header_bounds LittleEndian
                    [x00; x00; x08; x01; x00; x00; x00] 1)). simpl. lia.
Defined.

(** X3: On a big-endian host [read_header] returns the little-endian reading
    of the four bytes, for every buffer that holds them. *)
Theorem read_header_on_big_endian_host (buffer : list byte)
    (position : nat) (b0 b1 b2 b3 : byte) :
  buffer !! (4 * position)%nat = Some b0 ->
  buffer !! (4 * position + 1)%nat = Some b1 ->
  buffer !! (4 * position + 2)%nat = Some b2 ->
  buffer !! (4 * position + 3)%nat = Some b3 ->
  read_header BigEndian buffer position
  = Ok (unsigned_char b0 + unsigned_char b1 * 2 ^ 8
        + unsigned_char b2 * 2 ^ 16 + unsigned_char b3 * 2 ^ 24).
Proof.
  intros E0 E1 E2 E3. unfold read_header.
  rewrite (load_uint32_lookup BigEndian _ _ _ _ _ _ E0 E1 E2 E3).
  simpl. f_equal. rewrite swap_bytes_digits by apply unsigned_char_range.
  lia.
Qed.

Lemma read_header_on_big_endian_host_witness :
  read_header BigEndian [x03; x08; x00; x00] 0
  = Ok (unsigned_char x03 + unsigned_char x08 * 2 ^ 8
        + unsigned_char x00 * 2 ^ 16 + unsigned_char x00 * 2 ^ 24).
Proof.
  apply (read_header_on_big_endian_host [x03; x08; x00; x00] 0);
    reflexivity.
Defined.

Lemma read_header_range host (buffer : list byte) position value :
  read_header host buffer position = Ok value -> 0 <= value < 2 ^ 32.
Proof.
  intros H.
  destruct (decide (4 * (position + 1) <= length buffer)%nat) as [Hin|Hout].
  - destruct (read_header_in_bounds host buffer position Hin)
      as (v & Hv & Hr).
    rewrite Hv in H. injection H as <-. exact Hr.
  - rewrite read_header_out_of_bounds in H by lia. discriminate.
Qed.

(** ** Files shorter than their header *)

(** X4: On a file that opens but is shorter than the header that the
    reader needs, the reader reads a header word past the end of the
    buffer: the size of the file is not compared with the size of the
    header before [read_header] is called.  That is so for a file of
    fewer than 4 bytes, for an image file with the right magic number and
    fewer than 16 bytes, and for a label file with the right magic number
    and fewer than 8 bytes. *)
Theorem short_file_is_read_past_its_end {Pixel Label}
    (pixel_cast : byte -> Pixel) (label_cast : byte -> Label)
    (label_init : Label) (host : endianness) (fs : filesystem)
    (path : string) (buffer : list byte) (images : list (list Pixel))
    (labels : list Label) (limit : nat) (func : unit -> list Pixel) :
  fs path = Some buffer ->
  ((length buffer < 4)%nat ->
   read_mnist_image_file pixel_cast host fs images path limit func
   = Crash BufferOverread
   /\ read_mnist_label_file label_cast label_init host fs labels path limit
      = Crash BufferOverread)
  /\ ((length buffer < 16)%nat ->
      read_header host buffer 0 = Ok 0x803 ->
      read_mnist_image_file pixel_cast host fs images path limit func
      = Crash BufferOverread)
  /\ ((length buffer < 8)%nat ->
      read_header host buffer 0 = Ok 0x801 ->
      read_mnist_label_file label_cast label_init host fs labels path limit
      = Crash BufferOverread).
Proof.
  intros E. split; [|split].
  - intros Hlen. unfold read_mnist_image_file, read_mnist_label_file.
    rewrite E, (read_header_out_of_bounds host buffer 0) by lia.
    split; reflexivity.
  - intros Hlen H0. unfold read_mnist_image_file. rewrite E, H0. simpl.
    destruct (decide (2051 ≠ 2051)) as [Hm|_]; [contradiction|].
    destruct (decide (8 <= length buffer)%nat) as [L1|L1].
    2:{ rewrite (read_header_out_of_bounds host buffer 1) by lia.
        reflexivity. }
    destruct (read_header_in_bounds host buffer 1) as (count & -> & _);
      [lia|].
    simpl.
    destruct (decide (12 <= length buffer)%nat) as [L2|L2].
    2:{ rewrite (read_header_out_of_bounds host buffer 2) by lia.
        reflexivity. }
    destruct (read_header_in_bounds host buffer 2) as (rows & -> & _);
      [lia|].
    simpl.
    rewrite (read_header_out_of_bounds host buffer 3) by lia. reflexivity.
  - intros Hlen H0. unfold read_mnist_label_file. rewrite E, H0. simpl.
    destruct (decide (2049 ≠ 2049)) as [Hm|_]; [contradiction|].
    rewrite (read_header_out_of_bounds host buffer 1) by lia. reflexivity.
Qed.

Lemma short_file_is_read_past_its_end_witness :
  (read_mnist_image_file uint8 LittleEndian (one_file "empty" []) [] "empty"
     0 (flat_image 0)
   = Crash BufferOverread
   /\ read_mnist_label_file uint8 0 LittleEndian (one_file "empty" []) []
        "empty" 0
      = Crash BufferOverread)
  /\ read_mnist_image_file uint8 LittleEndian
       (one_file "images" [x00; x00; x08; x03; x00; x00; x00; x01]) []
       "images" 0 (flat_image 0)
     = Crash BufferOverread
  /\ read_mnist_label_file uint8 0 LittleEndian
       (one_file "labels" [x00; x00; x08; x01]) [] "labels" 0
     = Crash BufferOverread.
Proof.
  split; [|split].
  - apply (proj1 (short_file_is_read_past_its_end uint8 uint8 0 LittleEndian
                    (one_file "empty" []) "empty" [] [] [] 0 (flat_image 0)
                    eq_refl)).
    simpl. lia.
  - apply (proj1 (proj2 (short_file_is_read_past_its_end uint8 uint8 0
                           LittleEndian
                           (one_file "images"
                              [x00; x00; x08; x03; x00; x00; x00; x01])
                           "images" _ [] [] 0 (flat_image 0) eq_refl)));
      [simpl; lia | reflexivity].
  - apply (proj2 (proj2 (short_file_is_read_past_its_end uint8 uint8 0
                           LittleEndian
                           (one_file "labels" [x00; x00; x08; x01])
                           "labels" _ [] [] 0 (flat_image 0) eq_refl)));
      [simpl; lia | reflexivity].
Defined.

(** ** The size check of the label reader *)

Lemma copy_labels_overread {Label} (label_cast : byte -> Label)
    (buffer : list byte) (remaining : nat) :
  forall (labels : list Label) (label_buffer i : nat),
    (label_buffer <= length buffer)%nat ->
    (length buffer < label_buffer + remaining)%nat ->
    (i + remaining <= length labels)%nat ->
    copy_labels label_cast buffer labels label_buffer i remaining
    = Undefined BufferOverread.
Proof.
  induction remaining as [|remaining IH];
    intros labels label_buffer i Hlb Hshort Hl; [lia|].
  simpl. destruct (decide (label_buffer = length buffer)) as [->|Hne].
  - rewrite load_past_the_end by lia. reflexivity.
  - destruct (lookup_lt_is_Some_2 buffer label_buffer) as [b Eb]; [lia|].
    rewrite (load_lookup _ _ _ Eb). simpl. unfold assign_label.
    destruct (decide (i < length labels)%nat); [|lia].
    simpl. apply IH; rewrite ?length_insert; lia.
Qed.

(** X5: The size check of the label reader wraps around too.  Whenever a
    label file passes the check as the reader computes it and yet holds
    fewer labels than are requested, the declared count is within 8 of
    [2^32] and the reader reads past the end of the buffer. *)
Theorem label_size_check_wraps_around {Label} (label_cast : byte -> Label)
    (label_init : Label) (fs : filesystem) (path : string)
    (buffer : list byte) (count : Z) (labels : list Label) (limit : nat) :
  fs path = Some buffer ->
  header_word buffer 0 = Some 0x801 ->
  header_word buffer 1 = Some count ->
  ~ Z.of_nat (length buffer) < add32 count 8 ->
  (length buffer < 8 + requested limit count)%nat ->
  2 ^ 32 <= count + 8
  /\ read_mnist_label_file label_cast label_init LittleEndian fs labels path
       limit
     = Crash BufferOverread.
Proof.
  intros E H0 H1 Hpass Hshort.
  pose proof (header_word_range _ _ _ H1) as Hc.
  pose proof (requested_le limit count) as Hle.
  assert (H8 : (8 <= length buffer)%nat).
  { unfold header_word in H1.
    destruct (buffer !! (4 * 1)%nat); [|discriminate].
    destruct (buffer !! (4 * 1 + 1)%nat); [|discriminate].
    destruct (buffer !! (4 * 1 + 2)%nat); [|discriminate].
    destruct (buffer !! (4 * 1 + 3)%nat) as [b3|] eqn:E3; [|discriminate].
    apply lookup_lt_Some in E3. simpl in E3. lia. }
  split.
  - destruct (Z.lt_ge_cases (count + 8) (2 ^ 32)) as [Hsmall|Hbig];
      [|exact Hbig].
    exfalso. unfold add32 in Hpass. rewrite wrap32_small in Hpass by lia.
    lia.
  - unfold read_mnist_label_file. rewrite E.
    rewrite (read_header_little_endian _ _ _ H0). simpl.
    destruct (decide (2049 ≠ 2049)) as [Hm|_]; [contradiction|].
    rewrite (read_header_little_endian _ _ _ H1). simpl.
    destruct (decide _) as [Hbad|_]; [contradiction|].
    rewrite apply_limit_requested by lia.
    rewrite copy_labels_overread; rewrite ?length_resize; try lia.
    reflexivity.
Qed.

Lemma label_size_check_wraps_around_witness :
  2 ^ 32 <= 0xFFFFFFFF + 8
  /\ read_mnist_label_file uint8 0 LittleEndian
       (one_file "labels" (label_file 0x801 0xFFFFFFFF [x07])) [] "labels" 0
     = Crash BufferOverread.
Proof.
  apply (label_size_check_wraps_around uint8 0
           (one_file "labels" (label_file 0x801 0xFFFFFFFF [x07])) "labels"
           (label_file 0x801 0xFFFFFFFF [x07]) 0xFFFFFFFF [] 0);
    try reflexivity.
  - vm_compute. discriminate.
  - unfold requested. simpl length. lia.
Defined.

(** ** When the readers stay inside the buffer *)

Lemma apply_limit_bounds limit count :
  0 <= count -> 0 <= apply_limit limit count <= count.
Proof.
  intros Hc. unfold apply_limit.
  destruct (0 <? limit)%nat; simpl; [|lia].
  destruct (Z.ltb_spec (Z.of_nat limit) count); lia.
Qed.

(** X6: On any host, when the header of a label file can be read and the
    count read from it does not wrap the size check ([count + 8 < 2^32]),
    the label reader returns: it writes one diagnostic and leaves the
    container alone, or it writes nothing and leaves exactly the requested
    labels. *)
Theorem label_reader_stays_in_bounds {Label} (label_cast : byte -> Label)
    (label_init : Label) (host : endianness) (fs : filesystem)
    (path : string) (buffer : list byte) (magic count : Z)
    (labels : list Label) (limit : nat) :
  fs path = Some buffer ->
  read_header host buffer 0 = Ok magic ->
  read_header host buffer 1 = Ok count ->
  count + 8 < 2 ^ 32 ->
  exists out labels',
    read_mnist_label_file label_cast label_init host fs labels path limit
    = Return out labels'
    /\ ((out <> [] /\ labels' = labels)
        \/ (out = []
            /\ length labels' = Z.to_nat (apply_limit limit count))).
Proof.
  intros E H0 H1 Hsmall.
  pose proof (read_header_range _ _ _ _ H1) as Hc.
  pose proof (apply_limit_bounds limit count (proj1 Hc)) as Hn.
  unfold read_mnist_label_file. rewrite E, H0. simpl.
  destruct (decide (magic ≠ 2049)) as [Hm|_].
  { exists [invalid_magic_number], labels. split; [reflexivity|].
    left. split; [discriminate | reflexivity]. }
  rewrite H1. simpl.
  destruct (decide _) as [Hbad|Hok].
  { exists [file_not_large_enough], labels. split; [reflexivity|].
    left. split; [discriminate | reflexivity]. }
  unfold add32 in Hok. rewrite wrap32_small in Hok by lia.
  rewrite copy_labels_spec by (rewrite ?length_resize; lia).
  simpl. eexists [], _. split; [reflexivity|]. right. split; [reflexivity|].
  rewrite length_app, length_fmap, length_take, !length_drop, length_resize.
  lia.
Qed.

Lemma label_reader_stays_in_bounds_witness :
  exists out labels',
    read_mnist_label_file uint8 0 BigEndian
      (one_file "labels" [x01; x08; x00; x00; x02; x00; x00; x00; x07; x02])
      [] "labels" 0
    = Return out labels'
    /\ ((out <> [] /\ labels' = [])
        \/ (out = []
            /\ length labels' = Z.to_nat (apply_limit 0 2))).
Proof.
  apply (label_reader_stays_in_bounds uint8 0 BigEndian
           (one_file "labels"
              [x01; x08; x00; x00; x02; x00; x00; x00; x07; x02])
           "labels" [x01; x08; x00; x00; x02; x00; x00; x00; x07; x02]
           0x801 2 [] 0); try reflexivity.
Defined.

Lemma image_size_exact count rows columns :
  0 <= count -> 0 <= rows -> 0 <= columns ->
  count * rows * columns + 16 < 2 ^ 32 ->
  add32 (mul32 (mul32 count rows) columns) 16 = count * rows * columns + 16.
Proof.
  intros Hc Hr Hk Hsmall. unfold add32, mul32, wrap32.
  rewrite Z.mul_mod_idemp_l by lia.
  assert (0 <= count * rows * columns) by (apply Z.mul_nonneg_nonneg; lia).
  rewrite (Z.mod_small (count * rows * columns)) by lia.
  apply Z.mod_small. lia.
Qed.

(** X7: On any host, when the header of an image file can be read and the
    values read from it do not wrap the size check ([count*rows*columns +
    16 < 2^32]), the reader that builds its own images returns, and so
    does the reader of [mnist_reader.hpp] on an empty container when the
    functor's image has room for [rows*columns] pixels. *)
Theorem image_reader_stays_in_bounds {Pixel} (pixel_cast : byte -> Pixel)
    (pixel_init : Pixel) (host : endianness) (fs : filesystem)
    (path : string) (buffer : list byte) (magic count rows columns : Z)
    (limit : nat) (func : unit -> list Pixel) :
  fs path = Some buffer ->
  read_header host buffer 0 = Ok magic ->
  read_header host buffer 1 = Ok count ->
  read_header host buffer 2 = Ok rows ->
  read_header host buffer 3 = Ok columns ->
  count * rows * columns + 16 < 2 ^ 32 ->
  (exists out images,
     ReturnByValue.read_mnist_image_file pixel_cast pixel_init host fs path
       limit
     = Return out images)
  /\ ((Z.to_nat (mul32 rows columns) <= length (func tt))%nat ->
      exists out images,
        read_mnist_image_file pixel_cast host fs [] path limit func
        = Return out images).
Proof.
  intros E H0 H1 H2 H3 Hsmall.
  pose proof (read_header_range _ _ _ _ H1) as Hc.
  pose proof (read_header_range _ _ _ _ H2) as Hr.
  pose proof (read_header_range _ _ _ _ H3) as Hk.
  pose proof (apply_limit_bounds limit count (proj1 Hc)) as Hn.
  pose proof (image_size_exact count rows columns
                (proj1 Hc) (proj1 Hr) (proj1 Hk) Hsmall) as Hsize.
  assert (Hfit : ~ Z.of_nat (length buffer)
                   < add32 (mul32 (mul32 count rows) columns) 16 ->
                 (16 + Z.to_nat (apply_limit limit count)
                       * Z.to_nat (mul32 rows columns)
                  <= length buffer)%nat).
  { intros Hok. rewrite Hsize in Hok.
    pose proof (wrap32_le (rows * columns)) as Hw. fold (mul32 rows columns) in Hw.
    assert (0 <= rows * columns) by (apply Z.mul_nonneg_nonneg; lia).
    apply Nat2Z.inj_le. rewrite Nat2Z.inj_add, Nat2Z.inj_mul.
    rewrite !Z2Nat.id by lia.
    assert (apply_limit limit count * mul32 rows columns
            <= count * (rows * columns))
      by (apply Z.mul_le_mono_nonneg; lia).
    lia. }
  split.
  - unfold ReturnByValue.read_mnist_image_file. rewrite E, H0. simpl.
    destruct (decide (magic ≠ 2051)) as [Hm|_]; [eauto|].
    rewrite H1, H2, H3. simpl.
    destruct (decide _) as [Hbad|Hok]; [eauto|].
    rewrite copy_images_spec;
      [simpl; eauto | reflexivity | rewrite length_replicate; lia
      | apply Hfit, Hok].
  - intros Hf. unfold read_mnist_image_file. rewrite E, H0. simpl.
    destruct (decide (magic ≠ 2051)) as [Hm|_]; [eauto|].
    rewrite H1, H2, H3. simpl.
    destruct (decide _) as [Hbad|Hok]; [eauto|].
    rewrite copy_images_spec;
      [simpl; eauto | reflexivity | exact Hf | apply Hfit, Hok].
Qed.

Lemma image_reader_stays_in_bounds_witness :
  (exists out images,
     ReturnByValue.read_mnist_image_file uint8 0 LittleEndian
       (one_file "images" (image_file 0x803 3 2 2 [x01; x02; x03]))
       "images" 0
     = Return out images)
  /\ ((Z.to_nat (mul32 2 2) <= length (flat_image 0 tt))%nat ->
      exists out images,
        read_mnist_image_file uint8 LittleEndian
          (one_file "images" (image_file 0x803 3 2 2 [x01; x02; x03]))
          [] "images" 0 (flat_image 0)
        = Return out images).
Proof.
  apply (image_reader_stays_in_bounds uint8 0 LittleEndian
           (one_file "images" (image_file 0x803 3 2 2 [x01; x02; x03]))
           "images" (image_file 0x803 3 2 2 [x01; x02; x03]) 0x803 3 2 2 0
           (flat_image 0)); try reflexivity.
Defined.

(** ** The limit *)

(** X8: On any host, a limit that is at least the item count read from the
    header changes nothing: both readers behave as with no limit. *)
Theorem limit_beyond_count_is_no_limit {Pixel Label}
    (pixel_cast : byte -> Pixel) (label_cast : byte -> Label)
    (label_init : Label) (host : endianness) (fs : filesystem)
    (path : string) (buffer : list byte) (count : Z)
    (images : list (list Pixel)) (labels : list Label) (limit : nat)
    (func : unit -> list Pixel) :
  fs path = Some buffer ->
  read_header host buffer 1 = Ok count ->
  count <= Z.of_nat limit ->
  read_mnist_image_file pixel_cast host fs images path limit func
  = read_mnist_image_file pixel_cast host fs images path 0 func
  /\ read_mnist_label_file label_cast label_init host fs labels path limit
     = read_mnist_label_file label_cast label_init host fs labels path 0.
Proof.
  intros E H1 Hle.
  assert (Ha : apply_limit limit count = apply_limit 0 count).
  { unfold apply_limit. destruct (0 <? limit)%nat; simpl; [|reflexivity].
    destruct (Z.ltb_spec (Z.of_nat limit) count); [lia | reflexivity]. }
  unfold read_mnist_image_file, read_mnist_label_file. rewrite E.
  destruct (read_header host buffer 0) as [magic|]; [|split; reflexivity].
  simpl. split.
  - destruct (decide (magic ≠ 2051)); [reflexivity|].
    rewrite H1. simpl.
    destruct (read_header host buffer 2) as [rows|]; [|reflexivity].
    destruct (read_header host buffer 3) as [columns|]; [|reflexivity].
    simpl. destruct (decide _); [reflexivity|]. rewrite Ha. reflexivity.
  - destruct (decide (magic ≠ 2049)); [reflexivity|].
    rewrite H1. simpl. destruct (decide _); [reflexivity|].
    rewrite Ha. reflexivity.
Qed.

Lemma limit_beyond_count_is_no_limit_witness :
  read_mnist_image_file uint8 LittleEndian
    (one_file "images" (image_file 0x803 2 1 1 [x01; x02])) [] "images" 5
    (fun _ => [0])
  = read_mnist_image_file uint8 LittleEndian
      (one_file "images" (image_file 0x803 2 1 1 [x01; x02])) [] "images" 0
      (fun _ => [0])
  /\ read_mnist_label_file uint8 0 LittleEndian
       (one_file "images" (image_file 0x803 2 1 1 [x01; x02])) [] "images" 5
     = read_mnist_label_file uint8 0 LittleEndian
         (one_file "images" (image_file 0x803 2 1 1 [x01; x02])) [] "images"
         0.
Proof.
  apply (limit_beyond_count_is_no_limit uint8 uint8 0 LittleEndian
           (one_file "images" (image_file 0x803 2 1 1 [x01; x02])) "images"
           (image_file 0x803 2 1 1 [x01; x02]) 2 [] [] 5 (fun _ => [0]));
    try reflexivity.
  lia.
Defined.

Lemma requested_positive_limit limit count :
  (0 < limit)%nat -> requested limit count = Nat.min limit (requested 0 count).
Proof. intros H. destruct limit; [lia|]. unfold requested. lia. Qed.

(** X9: On a well-formed file, reading with a positive limit gives the first
    [limit] items of what reading without a limit gives: the labels for
    every entry state of the container, the images for an empty one. *)
Theorem limit_reads_a_prefix {Pixel Label}
    (pixel_cast : byte -> Pixel) (label_cast : byte -> Label)
    (label_init : Label) (fs : filesystem) (path : string)
    (buffer : list byte) (limit : nat) :
  fs path = Some buffer ->
  (0 < limit)%nat ->
  (forall count labels,
     label_file_well_formed buffer count ->
     exists all,
       read_mnist_label_file label_cast label_init LittleEndian fs labels
         path 0
       = Return [] all
       /\ read_mnist_label_file label_cast label_init LittleEndian fs labels
            path limit
          = Return [] (take limit all))
  /\ (forall count rows columns func,
        image_file_well_formed buffer count rows columns ->
        rows * columns < 2 ^ 32 ->
        (Z.to_nat (rows * columns) <= length (func tt))%nat ->
        exists all,
          read_mnist_image_file pixel_cast LittleEndian fs [] path 0 func
          = Return [] all
          /\ read_mnist_image_file pixel_cast LittleEndian fs [] path limit
               func
             = Return [] (take limit all)).
Proof.
  intros E Hpos. split.
  - intros count labels Hwf. eexists. split.
    { apply read_mnist_label_file_decodes; eassumption. }
    rewrite (read_mnist_label_file_decodes label_cast label_init fs path
               buffer count) by assumption.
    rewrite requested_positive_limit by exact Hpos.
    rewrite <- fmap_take, take_take. reflexivity.
  - intros count rows columns func Hwf Hrc Hf. eexists. split.
    { apply (read_mnist_image_file_decodes pixel_cast fs path buffer count
               rows columns); assumption. }
    rewrite (read_mnist_image_file_decodes pixel_cast fs path buffer count
               rows columns) by assumption.
    rewrite requested_positive_limit by exact Hpos.
    rewrite <- fmap_take, take_seq. reflexivity.
Qed.

Lemma limit_reads_a_prefix_witness :
  exists all,
    read_mnist_label_file uint8 0 LittleEndian
      (one_file "labels" (label_file 0x801 3 [x07; x02; x09])) [5] "labels" 0
    = Return [] all
    /\ read_mnist_label_file uint8 0 LittleEndian
         (one_file "labels" (label_file 0x801 3 [x07; x02; x09])) [5]
         "labels" 2
       = Return [] (take 2 all).
Proof.
  apply (proj1 (limit_reads_a_prefix uint8 uint8 0
                  (one_file "labels" (label_file 0x801 3 [x07; x02; x09]))
                  "labels" (label_file 0x801 3 [x07; x02; x09]) 2
                  eq_refl ltac:(lia)) 3 [5]).
  repeat split; try reflexivity; vm_compute; discriminate.
Defined.

(** ** Truncation keeps a prefix and composes *)

(** X10: [resize_training n] keeps the first [n] training images and does not
    touch the test split.  When the split had as many labels as images it
    keeps the first [n] labels too; when the labels were fewer than [n]
    and the images more, it pads the labels with the value-initialised
    label up to [n]. *)
Theorem resize_training_keeps_a_prefix {Pixel Label} (label_init : Label)
    (n : nat) (dataset : MNIST_dataset Pixel Label) :
  training_images (resize_training label_init n dataset)
  = take n (training_images dataset)
  /\ test_images (resize_training label_init n dataset) = test_images dataset
  /\ test_labels (resize_training label_init n dataset) = test_labels dataset
  /\ (length (training_labels dataset) = length (training_images dataset) ->
      training_labels (resize_training label_init n dataset)
      = take n (training_labels dataset))
  /\ ((length (training_labels dataset) <= n
       < length (training_images dataset))%nat ->
      training_labels (resize_training label_init n dataset)
      = training_labels dataset
        ++ replicate (n - length (training_labels dataset)) label_init).
Proof.
  unfold resize_training.
  destruct (decide (n < length (training_images dataset))%nat) as [Hlt|Hge];
    simpl.
  - split; [apply resize_le; lia|]. do 2 (split; [reflexivity|]). split.
    + intros Heq. apply resize_le. lia.
    + intros Hpad. apply resize_ge. lia.
  - split; [symmetry; apply take_ge; lia|]. do 2 (split; [reflexivity|]).
    split.
    + intros Heq. symmetry. apply take_ge. lia.
    + intros Hpad. lia.
Qed.

Lemma resize_training_keeps_a_prefix_witness :
  training_labels
    (resize_training 0 2
       {| training_images := [[1]; [2]; [3]]; test_images := [[4]];
          training_labels := [7]; test_labels := [6] |})
  = [7] ++ replicate (2 - 1) 0.
Proof.
  destruct (resize_training_keeps_a_prefix 0 2
              {| training_images := [[1]; [2]; [3]]; test_images := [[4]];
                 training_labels := [7]; test_labels := [6] |})
    as (_ & _ & _ & _ & Hpad).
  apply Hpad. simpl. lia.
Defined.

(** X11: [resize_test n] keeps the first [n] test images and does not
    touch the training split.  When the split had as many labels as images
    it keeps the first [n] labels too; when the labels were fewer than [n]
    and the images more, it pads the labels with the value-initialised
    label up to [n]. *)
Theorem resize_test_keeps_a_prefix {Pixel Label} (label_init : Label)
    (n : nat) (dataset : MNIST_dataset Pixel Label) :
  test_images (resize_test label_init n dataset)
  = take n (test_images dataset)
  /\ training_images (resize_test label_init n dataset)
     = training_images dataset
  /\ training_labels (resize_test label_init n dataset)
     = training_labels dataset
  /\ (length (test_labels dataset) = length (test_images dataset) ->
      test_labels (resize_test label_init n dataset)
      = take n (test_labels dataset))
  /\ ((length (test_labels dataset) <= n
       < length (test_images dataset))%nat ->
      test_labels (resize_test label_init n dataset)
      = test_labels dataset
        ++ replicate (n - length (test_labels dataset)) label_init).
Proof.
  unfold resize_test.
  destruct (decide (n < length (test_images dataset))%nat) as [Hlt|Hge];
    simpl.
  - split; [apply resize_le; lia|]. do 2 (split; [reflexivity|]). split.
    + intros Heq. apply resize_le. lia.
    + intros Hpad. apply resize_ge. lia.
  - split; [symmetry; apply take_ge; lia|]. do 2 (split; [reflexivity|]).
    split.
    + intros Heq. symmetry. apply take_ge. lia.
    + intros Hpad. lia.
Qed.

Lemma resize_test_keeps_a_prefix_witness :
  test_labels
    (resize_test 0 1
       {| training_images := [[1]]; test_images := [[4]; [5]];
          training_labels := [7]; test_labels := [6; 8] |})
  = take 1 [6; 8].
Proof.
  destruct (resize_test_keeps_a_prefix 0 1
              {| training_images := [[1]]; test_images := [[4]; [5]];
                 training_labels := [7]; test_labels := [6; 8] |})
    as (_ & _ & _ & Hsame & _).
  apply Hsame. reflexivity.
Defined.

(** X12: Two truncations of a split amount to one, to the smaller size, and
    truncations of the two splits commute. *)
Theorem resize_composes {Pixel Label} (label_init : Label) (m n : nat)
    (dataset : MNIST_dataset Pixel Label) :
  resize_training label_init m (resize_training label_init n dataset)
  = resize_training label_init (Nat.min m n) dataset
  /\ resize_test label_init m (resize_test label_init n dataset)
     = resize_test label_init (Nat.min m n) dataset
  /\ resize_training label_init m (resize_test label_init n dataset)
     = resize_test label_init n (resize_training label_init m dataset).
Proof.
  split; [|split].
  - unfold resize_training.
    destruct (decide (n < length (training_images dataset))%nat) as [Hn|Hn];
      simpl; rewrite ?length_resize.
    + destruct (decide (m < n)%nat) as [Hm|Hm]; simpl.
      * replace (Nat.min m n) with m by lia.
        destruct (decide (m < length (training_images dataset))%nat);
          [|lia].
        rewrite !resize_resize by lia. reflexivity.
      * replace (Nat.min m n) with n by lia.
        destruct (decide (n < length (training_images dataset))%nat);
          [reflexivity | lia].
    + destruct (decide (m < length (training_images dataset))%nat) as [Hm|Hm].
      * replace (Nat.min m n) with m by lia.
        destruct (decide (m < length (training_images dataset))%nat);
          [reflexivity | lia].
      * destruct (decide (Nat.min m n < length (training_images dataset))%nat);
          [lia | reflexivity].
  - unfold resize_test.
    destruct (decide (n < length (test_images dataset))%nat) as [Hn|Hn];
      simpl; rewrite ?length_resize.
    + destruct (decide (m < n)%nat) as [Hm|Hm]; simpl.
      * replace (Nat.min m n) with m by lia.
        destruct (decide (m < length (test_images dataset))%nat); [|lia].
        rewrite !resize_resize by lia. reflexivity.
      * replace (Nat.min m n) with n by lia.
        destruct (decide (n < length (test_images dataset))%nat);
          [reflexivity | lia].
    + destruct (decide (m < length (test_images dataset))%nat) as [Hm|Hm].
      * replace (Nat.min m n) with m by lia.
        destruct (decide (m < length (test_images dataset))%nat);
          [reflexivity | lia].
      * destruct (decide (Nat.min m n < length (test_images dataset))%nat);
          [lia | reflexivity].
  - unfold resize_training, resize_test.
    destruct (decide (n < length (test_images dataset))%nat);
      destruct (decide (m < length (training_images dataset))%nat);
      simpl;
      repeat match goal with
             | |- context [decide ?P] => destruct (decide P); try lia
             end;
      reflexivity.
Qed.

(** ** The assembler *)

Lemma well_formed_label_payload (buffer : list byte) count limit :
  label_file_well_formed buffer count ->
  length (take (requested limit count) (drop 8 buffer))
  = requested limit count.
Proof.
  intros (_ & H1 & Hs).
  pose proof (header_word_range _ _ _ H1).
  pose proof (requested_le limit count).
  rewrite length_take, length_drop. lia.
Qed.

(** X13: Reading the dataset with positive limits gives what reading it
    without limits and then truncating the two splits gives. *)
Theorem read_dataset_direct_limit_is_resize {Pixel Label}
    (pixel_cast : byte -> Pixel) (label_cast : byte -> Label)
    (pixel_init : Pixel) (label_init : Label) (fs : filesystem)
    (training_limit test_limit : nat)
    (train_images train_labels t10k_images t10k_labels : list byte)
    (train_count train_rows train_columns : Z)
    (t10k_count t10k_rows t10k_columns : Z) :
  fs "mnist/train-images-idx3-ubyte" = Some train_images ->
  fs "mnist/train-labels-idx1-ubyte" = Some train_labels ->
  fs "mnist/t10k-images-idx3-ubyte" = Some t10k_images ->
  fs "mnist/t10k-labels-idx1-ubyte" = Some t10k_labels ->
  image_file_well_formed train_images train_count train_rows train_columns ->
  label_file_well_formed train_labels train_count ->
  image_file_well_formed t10k_images t10k_count t10k_rows t10k_columns ->
  label_file_well_formed t10k_labels t10k_count ->
  train_rows * train_columns <= 1 * 28 * 28 ->
  t10k_rows * t10k_columns <= 1 * 28 * 28 ->
  (0 < training_limit)%nat ->
  (0 < test_limit)%nat ->
  exists full,
    read_dataset_direct pixel_cast label_cast pixel_init label_init
      LittleEndian fs 0 0
    = Return [] full
    /\ read_dataset_direct pixel_cast label_cast pixel_init label_init
         LittleEndian fs training_limit test_limit
       = Return []
           (resize_test label_init test_limit
              (resize_training label_init training_limit full)).
Proof.
  intros E1 E2 E3 E4 W1 W2 W3 W4 G1 G2 P1 P2.
  assert (Hflat : length (flat_image pixel_init tt) = 784%nat)
    by apply length_replicate.
  unfold read_dataset_direct, read_training_images, read_training_labels,
    read_test_images, read_test_labels.
  rewrite !(read_mnist_label_file_decodes label_cast label_init fs _ _ _ _ _
              E2 W2).
  rewrite !(read_mnist_label_file_decodes label_cast label_init fs _ _ _ _ _
              E4 W4).
  rewrite !(read_mnist_image_file_decodes pixel_cast fs _ _ _ _ _ _ _ E1 W1)
    by (rewrite ?Hflat; lia).
  rewrite !(read_mnist_image_file_decodes pixel_cast fs _ _ _ _ _ _ _ E3 W3)
    by (rewrite ?Hflat; lia).
  pose proof (well_formed_label_payload _ _ 0 W2) as L1.
  pose proof (well_formed_label_payload _ _ 0 W4) as L2.
  rewrite (requested_positive_limit training_limit) by exact P1.
  rewrite (requested_positive_limit test_limit) by exact P2.
  remember (requested 0 train_count) as c1 eqn:Hc1.
  remember (requested 0 t10k_count) as c2 eqn:Hc2.
  clear Hc1 Hc2.
  eexists. split; [reflexivity|]. simpl. f_equal.
  unfold resize_test, resize_training.
  cbn [training_images test_images training_labels test_labels].
  rewrite length_fmap, length_seq.
  destruct (decide (training_limit < c1)%nat) as [T|T];
    cbn [training_images test_images training_labels test_labels];
    rewrite length_fmap, length_seq;
    destruct (decide (test_limit < c2)%nat) as [S|S];
    f_equal;
    rewrite ?resize_le by (rewrite ?length_fmap, ?length_seq, ?L1, ?L2; lia);
    rewrite <- ?fmap_take, ?take_seq, ?take_take;
    repeat match goal with
           | |- context [Nat.min ?a ?b] =>
               first [replace (Nat.min a b) with a by lia
                     | replace (Nat.min a b) with b by lia]
           end;
    reflexivity.
Qed.

Lemma read_dataset_direct_limit_is_resize_witness :
  exists full,
    read_dataset_direct uint8 uint8 0 0 LittleEndian
      (mnist_directory
         (image_file 0x803 2 1 2 [x01; x02; x03; x04])
         (label_file 0x801 2 [x07; x02])
         (image_file 0x803 1 1 1 [x09])
         (label_file 0x801 1 [x03]))
      0 0
    = Return [] full
    /\ read_dataset_direct uint8 uint8 0 0 LittleEndian
         (mnist_directory
            (image_file 0x803 2 1 2 [x01; x02; x03; x04])
            (label_file 0x801 2 [x07; x02])
            (image_file 0x803 1 1 1 [x09])
            (label_file 0x801 1 [x03]))
         1 5
       = Return [] (resize_test 0 5 (resize_training 0 1 full)).
Proof.
  apply (read_dataset_direct_limit_is_resize uint8 uint8 0 0
           (mnist_directory
              (image_file 0x803 2 1 2 [x01; x02; x03; x04])
              (label_file 0x801 2 [x07; x02])
              (image_file 0x803 1 1 1 [x09])
              (label_file 0x801 1 [x03]))
           1 5
           (image_file 0x803 2 1 2 [x01; x02; x03; x04])
           (label_file 0x801 2 [x07; x02])
           (image_file 0x803 1 1 1 [x09])
           (label_file 0x801 1 [x03])
           2 1 2 1 1 1);
    try reflexivity; try lia;
    repeat split; try reflexivity; vm_compute; discriminate.
Defined.

(** X14: When none of the four files can be opened, on any host and with any
    limits, the assembler still returns a dataset: the four collections
    are empty and the open diagnostic has been written four times. *)
Theorem read_dataset_direct_without_files {Pixel Label}
    (pixel_cast : byte -> Pixel) (label_cast : byte -> Label)
    (pixel_init : Pixel) (label_init : Label) (host : endianness)
    (fs : filesystem) (training_limit test_limit : nat) :
  fs "mnist/train-images-idx3-ubyte" = None ->
  fs "mnist/train-labels-idx1-ubyte" = None ->
  fs "mnist/t10k-images-idx3-ubyte" = None ->
  fs "mnist/t10k-labels-idx1-ubyte" = None ->
  read_dataset_direct pixel_cast label_cast pixel_init label_init host fs
    training_limit test_limit
  = Return [error_opening_file; error_opening_file; error_opening_file;
            error_opening_file]
      {| training_images := []; test_images := [];
         training_labels := []; test_labels := [] |}.
Proof.
  intros E1 E2 E3 E4.
  unfold read_dataset_direct, read_training_images, read_training_labels,
    read_test_images, read_test_labels.
  rewrite (image_open_failure pixel_cast host fs _ _ _ _ E1),
    (label_open_failure label_cast label_init host fs _ _ _ E2),
    (image_open_failure pixel_cast host fs _ _ _ _ E3),
    (label_open_failure label_cast label_init host fs _ _ _ E4).
  reflexivity.
Qed.

Lemma read_dataset_direct_without_files_witness :
  read_dataset_direct uint8 uint8 0 0 BigEndian (fun _ => None) 0 10
  = Return [error_opening_file; error_opening_file; error_opening_file;
            error_opening_file]
      {| training_images := []; test_images := [];
         training_labels := []; test_labels := [] |}.
Proof.
  apply (read_dataset_direct_without_files uint8 uint8 0 0 BigEndian
           (fun _ => None) 0 10); reflexivity.
Defined.

(** X15: The assembler does not compare the files of a split.  When only the
    training image file cannot be opened it returns a dataset with no
    training image and all the requested training labels, after one
    diagnostic; and no [resize_training] changes that dataset afterwards,
    since the operation looks at the number of images only. *)
Theorem missing_image_file_leaves_labels_alone {Pixel Label}
    (pixel_cast : byte -> Pixel) (label_cast : byte -> Label)
    (pixel_init : Pixel) (label_init : Label) (fs : filesystem)
    (training_limit test_limit : nat)
    (train_labels t10k_images t10k_labels : list byte)
    (train_count t10k_count t10k_rows t10k_columns : Z) :
  fs "mnist/train-images-idx3-ubyte" = None ->
  fs "mnist/train-labels-idx1-ubyte" = Some train_labels ->
  fs "mnist/t10k-images-idx3-ubyte" = Some t10k_images ->
  fs "mnist/t10k-labels-idx1-ubyte" = Some t10k_labels ->
  label_file_well_formed train_labels train_count ->
  image_file_well_formed t10k_images t10k_count t10k_rows t10k_columns ->
  label_file_well_formed t10k_labels t10k_count ->
  t10k_rows * t10k_columns <= 1 * 28 * 28 ->
  exists dataset,
    read_dataset_direct pixel_cast label_cast pixel_init label_init
      LittleEndian fs training_limit test_limit
    = Return [error_opening_file] dataset
    /\ training_images dataset = []
    /\ length (training_labels dataset) = requested training_limit train_count
    /\ forall n, resize_training label_init n dataset = dataset.
Proof.
  intros E1 E2 E3 E4 W2 W3 W4 G2.
  assert (Hflat : length (flat_image pixel_init tt) = 784%nat)
    by apply length_replicate.
  unfold read_dataset_direct, read_training_images, read_training_labels,
    read_test_images, read_test_labels.
  rewrite (image_open_failure pixel_cast LittleEndian fs _ _ _ _ E1).
  rewrite (read_mnist_label_file_decodes label_cast label_init fs _ _ _ _ _
             E2 W2).
  rewrite (read_mnist_label_file_decodes label_cast label_init fs _ _ _ _ _
             E4 W4).
  rewrite (read_mnist_image_file_decodes pixel_cast fs _ _ _ _ _ _ _ E3 W3)
    by (rewrite ?Hflat; lia).
  eexists. split; [reflexivity|]. split; [reflexivity|]. split.
  - cbn [training_labels].
    rewrite length_fmap. apply well_formed_label_payload, W2.
  - intros n. unfold resize_training. cbn [training_images].
    destruct (decide (n < length [])%nat) as [H|_]; [simpl in H; lia|].
    reflexivity.
Qed.

Lemma missing_image_file_leaves_labels_alone_witness :
  exists dataset,
    read_dataset_direct uint8 uint8 0 0 LittleEndian
      (fun p =>
         if decide (p = "mnist/train-images-idx3-ubyte") then None
         else mnist_directory [] (label_file 0x801 2 [x07; x02])
                (image_file 0x803 1 1 1 [x09]) (label_file 0x801 1 [x03]) p)
      0 0
    = Return [error_opening_file] dataset
    /\ training_images dataset = []
    /\ length (training_labels dataset) = requested 0 2
    /\ forall n, resize_training 0 n dataset = dataset.
Proof.
  apply (missing_image_file_leaves_labels_alone uint8 uint8 0 0
           (fun p =>
              if decide (p = "mnist/train-images-idx3-ubyte") then None
              else mnist_directory [] (label_file 0x801 2 [x07; x02])
                     (image_file 0x803 1 1 1 [x09])
                     (label_file 0x801 1 [x03]) p)
           0 0 (label_file 0x801 2 [x07; x02])
           (image_file 0x803 1 1 1 [x09]) (label_file 0x801 1 [x03])
           2 1 1 1);
    try reflexivity;
    repeat split; try reflexivity; vm_compute; discriminate.
Defined.

(** X16: In the variant that returns its containers, the assembler gives each
    split [min(count, limit)] images but [count] labels: with a positive
    limit below the item count the two numbers differ. *)
Theorem by_value_read_dataset_counts {Pixel Label}
    (pixel_cast : byte -> Pixel) (label_cast : byte -> Label)
    (pixel_init : Pixel) (label_init : Label) (fs : filesystem)
    (training_limit test_limit : nat)
    (train_images train_labels t10k_images t10k_labels : list byte)
    (train_count train_rows train_columns : Z)
    (t10k_count t10k_rows t10k_columns : Z) :
  fs "mnist/train-images-idx3-ubyte" = Some train_images ->
  fs "mnist/train-labels-idx1-ubyte" = Some train_labels ->
  fs "mnist/t10k-images-idx3-ubyte" = Some t10k_images ->
  fs "mnist/t10k-labels-idx1-ubyte" = Some t10k_labels ->
  image_file_well_formed train_images train_count train_rows train_columns ->
  label_file_well_formed train_labels train_count ->
  image_file_well_formed t10k_images t10k_count t10k_rows t10k_columns ->
  label_file_well_formed t10k_labels t10k_count ->
  train_rows * train_columns < 2 ^ 32 ->
  t10k_rows * t10k_columns < 2 ^ 32 ->
  exists dataset,
    ReturnByValue.read_dataset pixel_cast label_cast pixel_init label_init
      LittleEndian fs training_limit test_limit
    = Return [] dataset
    /\ length (training_images dataset) = requested training_limit train_count
    /\ length (training_labels dataset) = Z.to_nat train_count
    /\ length (test_images dataset) = requested test_limit t10k_count
    /\ length (test_labels dataset) = Z.to_nat t10k_count.
Proof.
  intros E1 E2 E3 E4 W1 W2 W3 W4 G1 G2.
  destruct (by_value_label_file_length label_cast label_init fs _ _ _
              training_limit E2 W2) as (labels1 & R2 & L2 & _).
  destruct (by_value_label_file_length label_cast label_init fs _ _ _
              test_limit E4 W4) as (labels2 & R4 & L4 & _).
  unfold ReturnByValue.read_dataset, ReturnByValue.read_training_images,
    ReturnByValue.read_training_labels, ReturnByValue.read_test_images,
    ReturnByValue.read_test_labels.
  rewrite (by_value_image_file_decodes pixel_cast pixel_init fs _ _ _ _ _ _
             E1 W1 G1).
  rewrite (by_value_image_file_decodes pixel_cast pixel_init fs _ _ _ _ _ _
             E3 W3 G2).
  rewrite R2, R4.
  eexists. split; [reflexivity|].
  cbn [training_images test_images training_labels test_labels].
  rewrite !length_fmap, !length_seq. auto.
Qed.

Lemma by_value_read_dataset_counts_witness :
  exists dataset,
    ReturnByValue.read_dataset uint8 uint8 0 0 LittleEndian
      (mnist_directory
         (image_file 0x803 2 1 2 [x01; x02; x03; x04])
         (label_file 0x801 2 [x07; x02])
         (image_file 0x803 1 1 1 [x09])
         (label_file 0x801 1 [x03]))
      1 0
    = Return [] dataset
    /\ length (training_images dataset) = requested 1 2
    /\ length (training_labels dataset) = Z.to_nat 2
    /\ length (test_images dataset) = requested 0 1
    /\ length (test_labels dataset) = Z.to_nat 1.
Proof.
  apply (by_value_read_dataset_counts uint8 uint8 0 0
           (mnist_directory
              (image_file 0x803 2 1 2 [x01; x02; x03; x04])
              (label_file 0x801 2 [x07; x02])
              (image_file 0x803 1 1 1 [x09])
              (label_file 0x801 1 [x03]))
           1 0
           (image_file 0x803 2 1 2 [x01; x02; x03; x04])
           (label_file 0x801 2 [x07; x02])
           (image_file 0x803 1 1 1 [x09])
           (label_file 0x801 1 [x03])
           2 1 2 1 1 1);
    try reflexivity;
    repeat split; try reflexivity; vm_compute; discriminate.
Defined.

(** ** The container on entry *)

Lemma copy_labels_same_result {Label} (label_cast : byte -> Label)
    (buffer : list byte) (remaining : nat) :
  forall (labels1 labels2 : list Label) (label_buffer i : nat),
    length labels1 = length labels2 ->
    take i labels1 = take i labels2 ->
    drop (i + remaining) labels1 = drop (i + remaining) labels2 ->
    copy_labels label_cast buffer labels1 label_buffer i remaining
    = copy_labels label_cast buffer labels2 label_buffer i remaining.
Proof.
  induction remaining as [|remaining IH];
    intros labels1 labels2 label_buffer i Hl Ht Hd; simpl.
  - rewrite Nat.add_0_r in Hd.
    rewrite <- (take_drop i labels1), <- (take_drop i labels2), Ht, Hd.
    reflexivity.
  - destruct (load buffer label_buffer) as [b|]; [|reflexivity].
    simpl. unfold assign_label. rewrite Hl.
    destruct (decide (i < length labels2)%nat) as [Hi|Hi]; [|reflexivity].
    simpl. apply IH.
    + rewrite !length_insert. exact Hl.
    + rewrite (take_S_r (<[i:=label_cast b]> labels1) i (label_cast b))
        by (apply list_lookup_insert_eq; lia).
      rewrite (take_S_r (<[i:=label_cast b]> labels2) i (label_cast b))
        by (apply list_lookup_insert_eq; lia).
      rewrite !take_insert_ge by lia. rewrite Ht. reflexivity.
    + rewrite !drop_insert_lt by lia.
      replace (S i + remaining)%nat with (i + S remaining)%nat by lia.
      exact Hd.
Qed.

(** X17: On any host, once the three checks of the label reader pass, what the
    call does (the labels it leaves, or the read past the buffer) does not
    depend on what the container held on entry. *)
Theorem label_reader_discards_entry_content {Label}
    (label_cast : byte -> Label) (label_init : Label) (host : endianness)
    (fs : filesystem) (path : string) (labels1 labels2 : list Label)
    (limit : nat) :
  label_checks_pass host fs path ->
  read_mnist_label_file label_cast label_init host fs labels1 path limit
  = read_mnist_label_file label_cast label_init host fs labels2 path limit.
Proof.
  intros (buffer & count & E & H0 & H1 & Hok).
  unfold read_mnist_label_file. rewrite E, H0. simpl.
  destruct (decide (2049 ≠ 2049)) as [Hm|_]; [contradiction|].
  rewrite H1. simpl.
  destruct (decide _) as [Hbad|_]; [contradiction|].
  rewrite (copy_labels_same_result label_cast buffer _
             (resize (Z.to_nat (apply_limit limit count)) label_init labels1)
             (resize (Z.to_nat (apply_limit limit count)) label_init labels2));
    [reflexivity | | |].
  - rewrite !length_resize. reflexivity.
  - reflexivity.
  - rewrite !drop_ge by (rewrite length_resize; lia). reflexivity.
Qed.

Lemma label_reader_discards_entry_content_witness :
  read_mnist_label_file uint8 0 LittleEndian
    (one_file "labels" (label_file 0x801 2 [x07; x02])) [5; 5; 5] "labels" 0
  = read_mnist_label_file uint8 0 LittleEndian
      (one_file "labels" (label_file 0x801 2 [x07; x02])) [] "labels" 0.
Proof.
  apply (label_reader_discards_entry_content uint8 0 LittleEndian
           (one_file "labels" (label_file 0x801 2 [x07; x02])) "labels"
           [5; 5; 5] [] 0).
  exists (label_file 0x801 2 [x07; x02]), 2.
  repeat split; try reflexivity. vm_compute. discriminate.
Defined.

Lemma length_refilled {Pixel} (pixel_cast : byte -> Pixel)
    (buffer : list byte) pixels image_buffer k (image : list Pixel) :
  (pixels <= length image)%nat ->
  (image_buffer + (k + 1) * pixels <= length buffer)%nat ->
  (pixels
   <= length (refilled pixel_cast buffer pixels image_buffer k image))%nat.
Proof.
  intros H Hb. unfold refilled.
  rewrite length_app, length_fmap, length_take, !length_drop. lia.
Qed.

(** The image loop entered at [i] on a container of at least [i] images:
    it writes image [k] of the payload into element [i + k] of the
    container as extended by the functor's images. *)
Lemma copy_images_prefilled {Pixel} (pixel_cast : byte -> Pixel)
    (buffer : list byte) (func : unit -> list Pixel)
    (pixels remaining : nat) :
  forall (images : list (list Pixel)) (image_buffer i : nat),
    (i <= length images)%nat ->
    Forall (fun image => (pixels <= length image)%nat) images ->
    (pixels <= length (func tt))%nat ->
    (image_buffer + remaining * pixels <= length buffer)%nat ->
    copy_images pixel_cast buffer func pixels images image_buffer i remaining
    = Ok (take i (images ++ replicate remaining (func tt))
          ++ imap (refilled pixel_cast buffer pixels image_buffer)
               (take remaining
                  (drop i (images ++ replicate remaining (func tt))))
          ++ drop (i + remaining) (images ++ replicate remaining (func tt)),
          (image_buffer + remaining * pixels)%nat).
Proof.
  induction remaining as [|remaining IH];
    intros images image_buffer i Hi Hall Hf Hb.
  - simpl. rewrite !Nat.add_0_r, app_nil_r, take_drop. reflexivity.
  - assert (Hall1 : Forall (fun image => (pixels <= length image)%nat)
                      (images ++ [func tt])).
    { apply Forall_app. split; [exact Hall|]. constructor; [exact Hf|].
      constructor. }
    destruct (lookup_lt_is_Some_2 (images ++ [func tt]) i) as [image Ei].
    { rewrite length_app. simpl. lia. }
    pose proof (Forall_lookup_1 _ _ _ _ Hall1 Ei) as Hlen. simpl in Hlen.
    cbn [copy_images].
    rewrite (copy_pixels_spec pixel_cast buffer i pixels _ image)
      by (try exact Ei; lia).
    cbn [mbind result_bind].
    change (take 0 image) with (@nil Pixel). rewrite Nat.add_0_l, app_nil_l.
    fold (refilled pixel_cast buffer pixels (image_buffer + 0 * pixels) 0 image).
    assert (Hfold : (pixel_cast <$> take pixels (drop image_buffer buffer))
                    ++ drop pixels image
                    = refilled pixel_cast buffer pixels image_buffer 0 image).
    { unfold refilled. rewrite Nat.mul_0_l, Nat.add_0_r. reflexivity. }
    rewrite Hfold.
    set (x := refilled pixel_cast buffer pixels image_buffer 0 image).
    rewrite (IH _ _ (S i)).
    2:{ rewrite length_insert, length_app. simpl. lia. }
    2:{ apply Forall_insert; [exact Hall1|].
        apply length_refilled; [exact Hlen | lia]. }
    2:{ exact Hf. }
    2:{ lia. }
    f_equal. f_equal; [|lia].
    assert (Hext : (images ++ [func tt]) ++ replicate remaining (func tt)
                   = images ++ replicate (S remaining) (func tt)).
    { rewrite <- app_assoc. reflexivity. }
    set (all := images ++ replicate (S remaining) (func tt)) in *.
    assert (Hins : <[i:=x]> (images ++ [func tt])
                   ++ replicate remaining (func tt)
                   = <[i:=x]> all).
    { rewrite <- Hext. symmetry. apply insert_app_l.
      apply (lookup_lt_Some _ _ _ Ei). }
    rewrite Hins.
    assert (Eall : all !! i = Some image).
    { rewrite <- Hext. rewrite lookup_app_l; [exact Ei|].
      apply (lookup_lt_Some _ _ _ Ei). }
    pose proof (lookup_lt_Some _ _ _ Eall) as Hlt.
    rewrite (take_S_r (<[i:=x]> all) i x)
      by (apply list_lookup_insert_eq; exact Hlt).
    rewrite take_insert_ge by lia.
    rewrite !drop_insert_lt by lia.
    rewrite (drop_S all image i Eall). rewrite firstn_cons, imap_cons.
    rewrite <- !app_assoc. simpl. f_equal. f_equal.
    replace (S (i + remaining)) with (i + S remaining)%nat by lia.
    f_equal. apply imap_ext. intros k image' _. unfold refilled. simpl.
    do 4 f_equal. lia.
Qed.

(** X18: The image reader indexes the container by the loop counter, not by
    the position of the image it has just pushed.  On a container that
    already holds images it therefore writes the decoded pixels over the
    images at the front, and leaves at the back the images that the
    functor made; when the container held at least as many images as are
    read, none of the appended images receives a pixel. *)
Theorem image_reader_overwrites_the_front {Pixel}
    (pixel_cast : byte -> Pixel) (fs : filesystem) (path : string)
    (buffer : list byte) (count rows columns : Z)
    (images : list (list Pixel)) (limit : nat) (func : unit -> list Pixel) :
  fs path = Some buffer ->
  image_file_well_formed buffer count rows columns ->
  rows * columns < 2 ^ 32 ->
  Forall (fun image => (Z.to_nat (rows * columns) <= length image)%nat)
    images ->
  (Z.to_nat (rows * columns) <= length (func tt))%nat ->
  read_mnist_image_file pixel_cast LittleEndian fs images path limit func
  = Return []
      (imap (refilled pixel_cast buffer (Z.to_nat (rows * columns)) 16)
         (take (requested limit count)
            (images ++ replicate (requested limit count) (func tt)))
       ++ drop (requested limit count)
            (images ++ replicate (requested limit count) (func tt)))
  /\ ((requested limit count <= length images)%nat ->
      read_mnist_image_file pixel_cast LittleEndian fs images path limit func
      = Return []
          (imap (refilled pixel_cast buffer (Z.to_nat (rows * columns)) 16)
             (take (requested limit count) images)
           ++ drop (requested limit count) images
           ++ replicate (requested limit count) (func tt))).
Proof.
  intros E (H0 & H1 & H2 & H3 & Hs) Hrc Hall Hf.
  pose proof (header_word_range _ _ _ H1) as Hc.
  pose proof (header_word_range _ _ _ H2) as Hr.
  pose proof (header_word_range _ _ _ H3) as Hk.
  pose proof (requested_le limit count) as Hle.
  assert (Hrun :
    read_mnist_image_file pixel_cast LittleEndian fs images path limit func
    = Return []
        (imap (refilled pixel_cast buffer (Z.to_nat (rows * columns)) 16)
           (take (requested limit count)
              (images ++ replicate (requested limit count) (func tt)))
         ++ drop (requested limit count)
              (images ++ replicate (requested limit count) (func tt)))).
  { unfold read_mnist_image_file. rewrite E.
    rewrite (read_header_little_endian _ _ _ H0). simpl.
    destruct (decide (2051 ≠ 2051)) as [Hm|_]; [contradiction|].
    rewrite (read_header_little_endian _ _ _ H1),
      (read_header_little_endian _ _ _ H2),
      (read_header_little_endian _ _ _ H3). simpl.
    destruct (decide _) as [Hbad|_].
    { exfalso. revert Hbad. apply image_size_check_passes; lia. }
    rewrite apply_limit_requested by lia.
    unfold mul32. rewrite wrap32_small by lia.
    rewrite copy_images_prefilled; [reflexivity | lia | exact Hall | exact Hf |].
    apply Nat2Z.inj_le. rewrite Nat2Z.inj_add, Nat2Z.inj_mul.
    rewrite Z2Nat.id by lia.
    assert (Z.of_nat (requested limit count) <= count) by lia.
    assert (Z.of_nat (requested limit count) * (rows * columns)
            <= count * (rows * columns))
      by (apply Z.mul_le_mono_nonneg_r; lia).
    lia. }
  split; [exact Hrun|].
  intros Hn. rewrite Hrun.
  rewrite take_app_le, drop_app_le by exact Hn. reflexivity.
Qed.

Lemma image_reader_overwrites_the_front_witness :
  read_mnist_image_file uint8 LittleEndian
    (one_file "images" (image_file 0x803 1 1 2 [x01; x02])) [[8; 8; 8]; [9; 9]]
    "images" 0 (fun _ => [0; 0])
  = Return []
      (imap (refilled uint8 (image_file 0x803 1 1 2 [x01; x02])
               (Z.to_nat (1 * 2)) 16)
         (take (requested 0 1) [[8; 8; 8]; [9; 9]])
       ++ drop (requested 0 1) [[8; 8; 8]; [9; 9]]
       ++ replicate (requested 0 1) [0; 0]).
Proof.
  refine (proj2 (image_reader_overwrites_the_front uint8
                   (one_file "images" (image_file 0x803 1 1 2 [x01; x02]))
                   "images" (image_file 0x803 1 1 2 [x01; x02]) 1 1 2
                   [[8; 8; 8]; [9; 9]] 0 (fun _ => [0; 0]) _ _ _ _ _) _).
  - reflexivity.
  - repeat split; try reflexivity; vm_compute; discriminate.
  - reflexivity.
  - repeat constructor; simpl; lia.
  - simpl. lia.
  - simpl. lia.
Defined.

(** ** The payload, end to end *)

Lemma concat_chunks {A B} (f : A -> B) (l : list A) (p n : nat) :
  (n * p <= length l)%nat ->
  concat ((fun k => f <$> take p (drop (k * p) l)) <$> seq 0 n)
  = f <$> take (n * p) l.
Proof.
  induction n as [|n IH]; intros Hlen.
  - reflexivity.
  - rewrite seq_S, fmap_app, concat_app, IH by lia. simpl.
    rewrite app_nil_r, <- fmap_app. f_equal.
    replace (p + n * p)%nat with (n * p + p)%nat by lia.
    rewrite <- take_take_drop. reflexivity.
Qed.

(** X19: The images that the by-value reader returns, laid end to end, are
    the first [n * rows * columns] bytes of the payload in file order,
    cast one by one: no byte is skipped, repeated or moved. *)
Theorem images_end_to_end_are_the_payload {Pixel}
    (pixel_cast : byte -> Pixel) (pixel_init : Pixel) (fs : filesystem)
    (path : string) (buffer : list byte) (count rows columns : Z)
    (limit : nat) :
  fs path = Some buffer ->
  image_file_well_formed buffer count rows columns ->
  rows * columns < 2 ^ 32 ->
  exists images,
    ReturnByValue.read_mnist_image_file pixel_cast pixel_init LittleEndian
      fs path limit
    = Return [] images
    /\ concat images
       = pixel_cast
         <$> take (requested limit count * Z.to_nat (rows * columns))
               (drop 16 buffer).
Proof.
  intros E Hwf Hrc. eexists. split.
  { apply (by_value_image_file_decodes pixel_cast pixel_init fs path buffer
             count rows columns); assumption. }
  destruct Hwf as (_ & H1 & H2 & H3 & Hs).
  pose proof (header_word_range _ _ _ H1) as Hc.
  pose proof (header_word_range _ _ _ H2) as Hr.
  pose proof (header_word_range _ _ _ H3) as Hk.
  pose proof (requested_le limit count) as Hle.
  rewrite <- (concat_chunks pixel_cast (drop 16 buffer)).
  - f_equal. apply list_fmap_ext. intros _ k _.
    rewrite drop_drop. reflexivity.
  - rewrite length_drop.
    assert (16 + requested limit count * Z.to_nat (rows * columns)
            <= length buffer)%nat; [|lia].
    apply Nat2Z.inj_le. rewrite Nat2Z.inj_add, Nat2Z.inj_mul.
    rewrite Z2Nat.id by lia.
    assert (Z.of_nat (requested limit count) <= count) by lia.
    assert (Z.of_nat (requested limit count) * (rows * columns)
            <= count * (rows * columns))
      by (apply Z.mul_le_mono_nonneg_r; lia).
    lia.
Qed.

Lemma images_end_to_end_are_the_payload_witness :
  exists images,
    ReturnByValue.read_mnist_image_file uint8 0 LittleEndian
      (one_file "images"
         (image_file 0x803 2 2 2 [x01; x02; x03; x04; x05; x06; x07; x08]))
      "images" 0
    = Return [] images
    /\ concat images
       = uint8
         <$> take (requested 0 2 * Z.to_nat (2 * 2))
               (drop 16
                  (image_file 0x803 2 2 2
                     [x01; x02; x03; x04; x05; x06; x07; x08])).
Proof.
  apply (images_end_to_end_are_the_payload uint8 0
           (one_file "images"
              (image_file 0x803 2 2 2
                 [x01; x02; x03; x04; x05; x06; x07; x08]))
           "images"
           (image_file 0x803 2 2 2 [x01; x02; x03; x04; x05; x06; x07; x08])
           2 2 2 0);
    try reflexivity.
  repeat split; try reflexivity; vm_compute; discriminate.
Defined.
